(** * Excuse generator: a shallow embedding of [src/generator.py]

    The development follows the Python module top to bottom: the request
    record, the template catalog, template selection, the context builder,
    the renderer ([str.format]), the length adjuster, the two public
    operations [generate] and [rephrase], and [persist].

    Conventions.
    - A Python [str] is a sequence of Unicode code points: [list N].  String
      literals of the source are written [py "..."], the UTF-8 decoding of
      the literal, so that [len] counts code points as Python does.
    - A Python [int] is a [Z].
    - The catalog is an insertion-ordered dictionary (the code relies on
      [next(iter(tones))]): an association list.  The context and the file
      system are plain dictionaries: [gmap].
    - Code that can raise returns a [result]; the exceptions are those the
      modelled statements can raise.
    - [random.Random] is an interface: a state, [seed], and the library's
      [_randbelow] with its range guarantee. *)

From Stdlib Require Import ZArith NArith String Ascii.
From stdpp Require Import base option list gmap fin_maps.

Local Open Scope Z_scope.

(** ** Python strings *)

Abbreviation str := (list N).

(** UTF-8 decoding of a source literal, one code point per element. *)
Fixpoint decode_utf8 (s : string) (need : nat) (acc : N) : str :=
  match s with
  | EmptyString => []
  | String a rest =>
      let b := N_of_ascii a in
      match need with
      | O =>
          if (b <? 128)%N then b :: decode_utf8 rest 0 0
          else if (b <? 224)%N then decode_utf8 rest 1 (b - 192)
          else if (b <? 240)%N then decode_utf8 rest 2 (b - 224)
          else decode_utf8 rest 3 (b - 240)
      | S O => (acc * 64 + (b - 128))%N :: decode_utf8 rest 0 0
      | S n => decode_utf8 rest n (acc * 64 + (b - 128))
      end
  end.

Definition py (s : string) : str := decode_utf8 s 0 0.

(** [len(s)] *)
Definition len (s : str) : Z := Z.of_nat (length s).

(** [a == b] on strings *)
Definition str_eqb (a b : str) : bool := bool_decide (a = b).

(** [s.startswith(p)] *)
Fixpoint startswith (p s : str) : bool :=
  match p, s with
  | [], _ => true
  | _ :: _, [] => false
  | a :: p', b :: s' => (a =? b)%N && startswith p' s'
  end.

(** [sep in s] *)
Fixpoint contains (sep s : str) : bool :=
  startswith sep s ||
  match s with
  | [] => false
  | _ :: s' => contains sep s'
  end.

(** [s.split(sep)[0]]: the text before the first occurrence of [sep], the
    whole text when there is none ([sep] is non-empty at every call). *)
Fixpoint split_first (sep s : str) : str :=
  match s with
  | [] => []
  | c :: s' => if startswith sep s then [] else c :: split_first sep s'
  end.

(** [str.isspace] on one code point: the characters [str.strip()] removes. *)
Definition isspace (c : N) : bool :=
  ((9 <=? c) && (c <=? 13) || (28 <=? c) && (c <=? 32) ||
   (c =? 133) || (c =? 160) || (c =? 5760) ||
   (8192 <=? c) && (c <=? 8202) || (c =? 8232) || (c =? 8233) ||
   (c =? 8239) || (c =? 8287) || (c =? 12288))%N.

Fixpoint lstrip (s : str) : str :=
  match s with
  | [] => []
  | c :: s' => if isspace c then lstrip s' else s
  end.

Definition rstrip (s : str) : str := reverse (lstrip (reverse s)).

(** [s.strip()] *)
Definition strip (s : str) : str := rstrip (lstrip s).

(** ** Exceptions and results *)

Inductive exn : Type :=
  | KeyError (key : str)
  | IndexError
  | ValueError
  | StopIteration
  | FileExistsError
  | IsADirectoryError
  | UnicodeEncodeError
  | UnsupportedFormat.

Inductive result (A : Type) : Type :=
  | Ok (a : A)
  | Raise (e : exn).
Arguments Ok {A} a.
Arguments Raise {A} e.

#[export] Instance result_ret : MRet result := fun A a => Ok a.
#[export] Instance result_bind : MBind result := fun A B f m =>
  match m with
  | Ok a => f a
  | Raise e => Raise e
  end.

(** ** Insertion-ordered dictionaries (the template catalog) *)

Abbreviation odict V := (list (str * V)).

(** [k in d] *)
Fixpoint od_mem {V} (k : str) (d : odict V) : bool :=
  match d with
  | [] => false
  | (k', _) :: d' => str_eqb k k' || od_mem k d'
  end.

(** [d[k]] *)
Fixpoint od_get {V} (k : str) (d : odict V) : result V :=
  match d with
  | [] => Raise (KeyError k)
  | (k', v) :: d' => if str_eqb k k' then Ok v else od_get k d'
  end.

(** [next(iter(d))] *)
Definition od_first_key {V} (d : odict V) : result str :=
  match d with
  | [] => Raise StopIteration
  | (k, _) :: _ => Ok k
  end.

Abbreviation catalog := (odict (odict (list str))).

(** ** The random source *)

(** [random.Random]: [seed(a)] replaces the whole state, [_randbelow(n)]
    returns an index below [n] and advances the state. *)
Class RandomSource := {
  rng : Type;
  rng_seed : Z → rng;
  rng_randbelow : rng → nat → nat * rng;
  rng_randbelow_lt : ∀ r n, (0 < n)%nat → (fst (rng_randbelow r n) < n)%nat
}.

(** [Random.choice(seq)] *)
Definition choice `{RandomSource} {A} (r : rng) (seq : list A) : result (A * rng) :=
  match seq with
  | [] => Raise IndexError
  | _ :: _ =>
      let '(i, r') := rng_randbelow r (length seq) in
      match seq !! i with
      | Some x => Ok (x, r')
      | None => Raise IndexError
      end
  end.

(** ** Requests *)

Record ExcuseRequest := {
  category : str;
  audience : str;
  tone : str;
  specificity : Z;
  length_ : str;
  custom_context : option str;
  seed : option Z;
  persist_history : bool;
  persist_dir : option str
}.

(** ** The template catalog *)

Definition _load_templates : catalog :=
  [ (py "General",
      [ (py "Professional",
          [ py "Sorry for the short notice. Something unexpected came up, so I can't {action} by {timeframe}. I'll share a simple plan and new time.";
            py "Apologies—an issue popped up and needs my attention. I'll update on {deliverable} by {new_time}." ]);
        (py "Casual",
          [ py "Sorry—something came up, so I can't {action} today. Can we do {new_time}?";
            py "Hey, quick heads-up: I'm tied up last minute. Can we move {action} to {new_time}?" ]);
        (py "Sincere",
          [ py "Thanks for understanding. A personal thing came up, so I can't {action} as planned. I'll follow up by {new_time}." ]);
        (py "Brief",
          [ py "Sorry—unexpected issue. Can't {action} by {timeframe}. Update by {new_time}." ]);
        (py "Light-hearted",
          [ py "Looks like I double-booked myself. Can we move {action} to {new_time}?" ]) ]);
    (py "Work Deadline",
      [ (py "Professional",
          [ py "I hit a blocker on {deliverable}. I won't make today's deadline. I'll send a simple plan and new ETA by {new_time}." ]);
        (py "Sincere",
          [ py "I'm sorry—something urgent slowed down {deliverable}. I'll focus on it and share a new time by {new_time}." ]);
        (py "Brief",
          [ py "Delay on {deliverable} due to a blocker. New ETA {new_time}." ]) ]);
    (py "School Assignment",
      [ (py "Professional",
          [ py "I ran into an issue and need a short extension for {deliverable}. I can submit by {new_time} if that's okay." ]);
        (py "Sincere",
          [ py "A personal situation came up and I couldn't finish {deliverable}. May I submit by {new_time}?" ]) ]);
    (py "Social Event",
      [ (py "Casual",
          [ py "I'm really sorry—I can't make it to {event} tonight. Can we catch up this weekend?" ]);
        (py "Light-hearted",
          [ py "My day did a plot twist. I have to miss {event}. Rain check for {new_time}?" ]) ]);
    (py "Appointment",
      [ (py "Professional",
          [ py "I need to reschedule today's appointment due to a conflict. Could we move it to {new_time}?" ]) ]);
    (py "Travel/Commute",
      [ (py "Professional",
          [ py "Travel delays are slowing me down. I should be there by {new_time}. Sorry for the hassle." ]);
        (py "Brief",
          [ py "Running late due to traffic. ETA {new_time}." ]) ]) ].

(** ** The generator object *)

Record ExcuseGenerator `{RandomSource} := {
  random : rng;
  templates : catalog
}.

(** [ExcuseGenerator()]: the random source starts in whatever state the
    operating system's entropy gives it. *)
Definition new_generator `{RandomSource} (entropy : rng) : ExcuseGenerator :=
  {| random := entropy; templates := _load_templates |}.

Definition set_random `{RandomSource} (self : ExcuseGenerator) (r : rng) : ExcuseGenerator :=
  {| random := r; templates := templates self |}.

(** ** Template selection *)

Definition _choose_template `{RandomSource} (self : ExcuseGenerator)
    (category tone : str) : result (str * ExcuseGenerator) :=
  let categories := templates self in
  let chosen_category :=
    if od_mem category categories then category else py "General" in
  tones ← od_get chosen_category categories;
  chosen_tone ← (if od_mem tone tones then Ok tone else od_first_key tones);
  candidates ← od_get chosen_tone tones;
  '(template, r) ← choice (random self) candidates;
  Ok (template, set_random self r).

(** ** Wall-clock time: [datetime] *)

Record DateTime := {
  year : Z;
  month : Z;
  day : Z;
  hour : Z;
  minute : Z;
  second : Z;
  microsecond : Z
}.

Definition _is_leap (y : Z) : bool :=
  (y mod 4 =? 0) && (negb (y mod 100 =? 0) || (y mod 400 =? 0)).

Definition _days_in_month (y m : Z) : Z :=
  if (m =? 2) && _is_leap y then 29
  else nth (Z.to_nat m) [0; 31; 28; 31; 30; 31; 30; 31; 31; 30; 31; 30; 31] 0.

Definition _days_before_year (y : Z) : Z :=
  let y := y - 1 in y * 365 + y / 4 - y / 100 + y / 400.

Definition _days_before_month (y m : Z) : Z :=
  nth (Z.to_nat m) [0; 0; 31; 59; 90; 120; 151; 181; 212; 243; 273; 304; 334] 0
  + (if (2 <? m) && _is_leap y then 1 else 0).

Definition _ymd2ord (y m d : Z) : Z :=
  _days_before_year y + _days_before_month y m + d.

(** [dt.weekday()]: Monday is 0. *)
Definition weekday (dt : DateTime) : Z :=
  (_ymd2ord (year dt) (month dt) (day dt) + 6) mod 7.

(** The field ranges the [datetime] constructor checks. *)
Definition datetime_ok (dt : DateTime) : bool :=
  (1 <=? year dt) && (year dt <=? 9999) &&
  (1 <=? month dt) && (month dt <=? 12) &&
  (1 <=? day dt) && (day dt <=? _days_in_month (year dt) (month dt)) &&
  (0 <=? hour dt) && (hour dt <? 24) &&
  (0 <=? minute dt) && (minute dt <? 60) &&
  (0 <=? second dt) && (second dt <? 60) &&
  (0 <=? microsecond dt) && (microsecond dt <? 1000000).

(** [dt.replace(hour=h)] and [dt.replace(minute=m)] build a new value
    through the constructor, which raises [ValueError] out of range. *)
Definition replace_hour (dt : DateTime) (h : Z) : result DateTime :=
  let dt' := {| year := year dt; month := month dt; day := day dt; hour := h;
                minute := minute dt; second := second dt;
                microsecond := microsecond dt |} in
  if datetime_ok dt' then Ok dt' else Raise ValueError.

Definition replace_minute (dt : DateTime) (m : Z) : result DateTime :=
  let dt' := {| year := year dt; month := month dt; day := day dt; hour := hour dt;
                minute := m; second := second dt;
                microsecond := microsecond dt |} in
  if datetime_ok dt' then Ok dt' else Raise ValueError.

Definition digit (n : Z) : N := Z.to_N (48 + n mod 10).

(** [%02d], [%04d] and [%06d] *)
Definition pad2 (n : Z) : str := [digit (n / 10); digit n].
Definition pad4 (n : Z) : str := pad2 (n / 100) ++ pad2 n.
Definition pad6 (n : Z) : str := pad2 (n / 10000) ++ pad4 n.

Definition day_name (wd : Z) : str :=
  nth (Z.to_nat wd)
    [py "Monday"; py "Tuesday"; py "Wednesday"; py "Thursday"; py "Friday";
     py "Saturday"; py "Sunday"] [].

(** The hour on the 12-hour clock, [%I]. *)
Definition hour12 (h : Z) : Z := if h mod 12 =? 0 then 12 else h mod 12.

(** [%p] in the C locale. *)
Definition am_pm (h : Z) : str := if h <? 12 then py "AM" else py "PM".

(** One [strftime] directive; the module uses [%A %I %M %p %Y %m %d]. *)
Definition directive (dt : DateTime) (c : N) : str :=
  if (c =? 65)%N then day_name (weekday dt)
  else if (c =? 73)%N then pad2 (hour12 (hour dt))
  else if (c =? 77)%N then pad2 (minute dt)
  else if (c =? 112)%N then am_pm (hour dt)
  else if (c =? 89)%N then pad4 (year dt)
  else if (c =? 109)%N then pad2 (month dt)
  else if (c =? 100)%N then pad2 (day dt)
  else if (c =? 37)%N then [37%N]
  else [37%N; c].

(** [dt.strftime(fmt)] *)
Fixpoint strftime (dt : DateTime) (fmt : str) : str :=
  match fmt with
  | [] => []
  | c :: rest =>
      match rest with
      | d :: rest' =>
          if (c =? 37)%N then directive dt d ++ strftime dt rest'
          else c :: strftime dt rest
      | [] => [c]
      end
  end.

(** [dt.isoformat()] *)
Definition isoformat (dt : DateTime) : str :=
  pad4 (year dt) ++ py "-" ++ pad2 (month dt) ++ py "-" ++ pad2 (day dt) ++ py "T"
  ++ pad2 (hour dt) ++ py ":" ++ pad2 (minute dt) ++ py ":" ++ pad2 (second dt)
  ++ (if microsecond dt =? 0 then [] else py "." ++ pad6 (microsecond dt)).

(** ** The context builder *)

(** [now] is the value [datetime.now()] returns inside the call. *)
Definition _build_context (now : DateTime) (request : ExcuseRequest)
    : result (gmap str str) :=
  let default_action := py "complete the task" in
  let default_deliverable := py "the deliverable" in
  let default_event := py "the event" in
  '(timeframe, new_time) ←
    (if 7 <=? specificity request then
       rounded ← replace_minute now ((minute now / 15) * 15);
       Ok (strftime now (py "%A %I:%M %p"), strftime rounded (py "%A %I:%M %p"))
     else if 4 <=? specificity request then
       shifted ← replace_hour now ((hour now + 3) mod 24);
       Ok (strftime now (py "%A"), strftime shifted (py "%A %I %p"))
     else Ok (py "today", py "tomorrow"));
  let context : gmap str str :=
    <[py "new_time" := new_time]>
      (<[py "timeframe" := timeframe]>
        (<[py "event" := default_event]>
          (<[py "deliverable" := default_deliverable]>
            (<[py "action" := default_action]> ∅)))) in
  let context :=
    match custom_context request with
    | Some ((_ :: _) as text) =>
        if (len text <? 120) && negb (contains (py ",") text) && contains (py " ") text
        then <[py "deliverable" := text]> context
        else <[py "notes" := text]> context
    | _ => context
    end in
  Ok context.

(** ** The renderer: [template.format( **context )] *)

Definition is_digit (c : N) : bool := ((48 <=? c) && (c <=? 57))%N.

(** The first component of a field name, up to [.] or [[]. *)
Fixpoint field_first (name : str) : str * str :=
  match name with
  | [] => ([], [])
  | c :: rest =>
      if (c =? 46)%N || (c =? 91)%N then ([], name)
      else let '(f, acc) := field_first rest in (c :: f, acc)
  end.

(** The value of one replacement field.  No positional arguments are
    passed, so an empty or numeric name is out of range; a keyword is looked
    up in the context.  Attribute and index access on the value, and the
    [ValueError] for an index with too many digits, are not modelled. *)
Definition get_field (name : str) (context : gmap str str) : result str :=
  let '(first, accessors) := field_first name in
  if forallb is_digit first then Raise IndexError
  else match context !! first with
       | None => Raise (KeyError first)
       | Some v => match accessors with [] => Ok v | _ => Raise UnsupportedFormat end
       end.

Inductive scan_state :=
  | Literal
  | Field (name_rev : str) (in_bracket : bool).

(** The markup scanner of [str.format]: [{{] and [}}] are escapes, a lone
    brace is a [ValueError], [{name}] is replaced.  Conversions ([!r]) and
    format specifications ([:>10]) are not modelled. *)
Fixpoint format_scan (context : gmap str str) (st : scan_state) (s : str) : result str :=
  match st, s with
  | Literal, [] => Ok []
  | Literal, c :: rest =>
      if (c =? 123)%N then
        match rest with
        | [] => Raise ValueError
        | c2 :: rest2 =>
            if (c2 =? 123)%N then
              out ← format_scan context Literal rest2; Ok (123%N :: out)
            else format_scan context (Field [] false) rest
        end
      else if (c =? 125)%N then
        match rest with
        | [] => Raise ValueError
        | c2 :: rest2 =>
            if (c2 =? 125)%N then
              out ← format_scan context Literal rest2; Ok (125%N :: out)
            else Raise ValueError
        end
      else out ← format_scan context Literal rest; Ok (c :: out)
  | Field _ _, [] => Raise ValueError
  | Field name_rev true, c :: rest =>
      format_scan context (Field (c :: name_rev) (negb (c =? 93)%N)) rest
  | Field name_rev false, c :: rest =>
      if (c =? 123)%N then Raise ValueError
      else if (c =? 91)%N then format_scan context (Field (c :: name_rev) true) rest
      else if (c =? 125)%N then
        value ← get_field (reverse name_rev) context;
        out ← format_scan context Literal rest;
        Ok (value ++ out)
      else if (c =? 58)%N || (c =? 33)%N then Raise UnsupportedFormat
      else format_scan context (Field (c :: name_rev) false) rest
  end.

Definition format (template : str) (context : gmap str str) : result str :=
  format_scan context Literal template.

(** ** The length adjuster *)

Definition addons : list str :=
  [ py " Thank you for your patience.";
    py " I appreciate your understanding and will keep you informed.";
    py " Please let me know if a different time works better." ].

Definition _vary `{RandomSource} (self : ExcuseGenerator) (text : str)
    (request : ExcuseRequest) : result (str * ExcuseGenerator) :=
  '(text, self) ←
    (if str_eqb (length_ request) (py "Short") then
       Ok (if 140 <? len text then split_first (py ". ") text ++ py "." else text, self)
     else if str_eqb (length_ request) (py "Long") then
       '(addon, r) ← choice (random self) addons;
       Ok (text ++ addon, set_random self r)
     else Ok (text, self));
  Ok (strip text, self).

(** ** The public operations *)

Definition generate `{RandomSource} (self : ExcuseGenerator) (request : ExcuseRequest)
    (now : DateTime) : result (str * ExcuseGenerator) :=
  let self :=
    match seed request with
    | Some s => set_random self (rng_seed s)
    | None => self
    end in
  '(template, self) ← _choose_template self (category request) (tone request);
  context ← _build_context now request;
  text ← match format template context with
         | Raise (KeyError _) => Ok template
         | rendered => rendered
         end;
  _vary self text request.

Definition rephrase `{RandomSource} (self : ExcuseGenerator) (request : ExcuseRequest)
    (base_text : str) (now : DateTime) : result (str * ExcuseGenerator) :=
  let self :=
    match seed request with
    | Some s => set_random self (rng_seed (s + 1))
    | None => self
    end in
  '(template, self) ← _choose_template self (category request) (tone request);
  context ← _build_context now request;
  text ← format template context;
  _vary self text request.

(** ** Persistence *)

(** The part of the file system [persist] touches: a path is a directory or
    a text file.  Paths are relative to the working directory, which exists. *)
Inductive node :=
  | Dir
  | File (content : str).

(** [path.mkdir(exist_ok=True, parents=True)] for a path directly under the
    working directory. *)
Definition mkdir_exist_ok (path : str) (fs : gmap str node) : result (gmap str node) :=
  match fs !! path with
  | None => Ok (<[path := Dir]> fs)
  | Some Dir => Ok fs
  | Some (File _) => Raise FileExistsError
  end.

Definition is_surrogate (c : N) : bool := ((55296 <=? c) && (c <=? 57343))%N.

(** [with path.open("a", encoding="utf-8") as f: f.write(data)]: the file is
    created when absent, and a lone surrogate cannot be encoded.  Newlines
    are written as they are (POSIX). *)
Definition append_text (path data : str) (fs : gmap str node) : result (gmap str node) :=
  match fs !! path with
  | Some Dir => Raise IsADirectoryError
  | Some (File old) =>
      if existsb is_surrogate data then Raise UnicodeEncodeError
      else Ok (<[path := File (old ++ data)]> fs)
  | None =>
      if existsb is_surrogate data then Raise UnicodeEncodeError
      else Ok (<[path := File data]> fs)
  end.

Definition hex_digit (n : N) : N := (if n <? 10 then 48 + n else 87 + n)%N.

(** One character of a JSON string with [ensure_ascii=False]: quotes,
    backslashes and control characters are escaped, the rest is kept. *)
Definition json_escape_char (c : N) : str :=
  if (c =? 34)%N then [92%N; 34%N]
  else if (c =? 92)%N then py "\\"
  else if (c =? 10)%N then py "\n"
  else if (c =? 13)%N then py "\r"
  else if (c =? 9)%N then py "\t"
  else if (c =? 8)%N then py "\b"
  else if (c =? 12)%N then py "\f"
  else if (c <? 32)%N then py "\u00" ++ [hex_digit (c / 16); hex_digit (c mod 16)]
  else [c].

Definition json_string (s : str) : str :=
  [34%N] ++ mjoin (json_escape_char <$> s) ++ [34%N].

(** [json.dumps({"timestamp": ts, "text": text}, ensure_ascii=False)] *)
Definition json_dumps_record (timestamp text : str) : str :=
  py "{" ++ json_string (py "timestamp") ++ py ": " ++ json_string timestamp
  ++ py ", " ++ json_string (py "text") ++ py ": " ++ json_string text ++ py "}".

(** The path [persist] writes on the day of [today]. *)
Definition history_file (dir : str) (today : DateTime) : str :=
  dir ++ py "/" ++ py "history_" ++ strftime today (py "%Y%m%d") ++ py ".jsonl".

(** [persist] reads the clock twice: [today] names the file, [stamp] is
    the record's timestamp. *)
Definition persist (text : str) (today stamp : DateTime) (fs : gmap str node)
    : result (gmap str node) :=
  let persist_dir := py ".history" in
  fs ← mkdir_exist_ok persist_dir fs;
  let file := history_file persist_dir today in
  let record := json_dumps_record (isoformat stamp) text in
  append_text file (record ++ [10%N]) fs.

(** The text of the file at [path], empty when there is none. *)
Definition file_content (fs : gmap str node) (path : str) : str :=
  match fs !! path with
  | Some (File content) => content
  | _ => []
  end.

(** The line one call writes. *)
Definition record_line (call : str * DateTime) : str :=
  json_dumps_record (isoformat call.2) call.1 ++ [10%N].

(** Several calls in a row on one day, each with its text and the time of
    its timestamp. *)
Fixpoint persist_all (calls : list (str * DateTime)) (today : DateTime)
    (fs : gmap str node) : result (gmap str node) :=
  match calls with
  | [] => Ok fs
  | (text, stamp) :: rest =>
      fs ← persist text today stamp fs;
      persist_all rest today fs
  end.

(** ** The caller ([app.py], the "Generate" button) *)

Record Session := {
  current_excuse : option str;
  history : list str
}.

(** [if generate_clicked: ...] in [render_output_area]: generate, record
    the result in the session, and persist it when the request asks to. *)
Definition on_generate `{RandomSource} (generator : ExcuseGenerator)
    (request : ExcuseRequest) (session : Session) (fs : gmap str node)
    (now today stamp : DateTime)
    : result (ExcuseGenerator * Session * gmap str node) :=
  '(result, generator) ← generate generator request now;
  let session := {| current_excuse := Some result;
                    history := history session ++ [result] |} in
  fs ← (if persist_history request then persist result today stamp fs else Ok fs);
  Ok (generator, session, fs).

(** ** A concrete random source

    A small congruential generator, to run the model on concrete requests. *)
Definition lcg : RandomSource :=
  {| rng := nat;
     rng_seed := fun a => Z.abs_nat a;
     rng_randbelow := fun r n => ((r `mod` n)%nat, (r * 5 + 3)%nat);
     rng_randbelow_lt := fun r n Hn =>
       Nat.mod_upper_bound r n (proj2 (Nat.neq_0_lt_0 n) Hn) |}.

(** ** The catalog lookup as the specification words it (section 4.1) *)

(** "If category absent, substitute General." *)
Definition resolved_category (c : catalog) (category : str) : str :=
  if od_mem category c then category else py "General".

(** "If tone absent, substitute the first tone defined for the resolved
    category." *)
Definition resolved_tone (tones : odict (list str)) (tone : str) : result str :=
  if od_mem tone tones then Ok tone else od_first_key tones.

(** [lookup(category, tone) -> list of template strings] *)
Definition lookup (c : catalog) (category tone : str) : result (list str) :=
  tones ← od_get (resolved_category c category) c;
  chosen_tone ← resolved_tone tones tone;
  od_get chosen_tone tones.

(** "Every category must define at least one tone with at least one
    template", and General is there to fall back on; every list that a tone
    names is non-empty. *)
Definition catalog_ok (c : catalog) : bool :=
  od_mem (py "General") c &&
  forallb (fun entry : str * odict (list str) =>
             match entry.2 with
             | [] => false
             | tones =>
                 forallb (fun t : str * list str =>
                            match t.2 with [] => false | _ => true end) tones
             end) c.

(** The first-sentence truncation of section 8: the text up to the first
    [". "], plus a period. *)
Definition first_sentence (text : str) : str :=
  split_first (py ". ") text ++ py ".".

(** ** The three parts of [_build_context], named

    [_build_context] computes the two time fields, fills the five default
    keys, and routes the custom context; [build_context_parts] below shows it
    is the composition of these. *)

Definition time_fields (now : DateTime) (spec : Z) : result (str * str) :=
  if 7 <=? spec then
    rounded ← replace_minute now ((minute now / 15) * 15);
    Ok (strftime now (py "%A %I:%M %p"), strftime rounded (py "%A %I:%M %p"))
  else if 4 <=? spec then
    shifted ← replace_hour now ((hour now + 3) mod 24);
    Ok (strftime now (py "%A"), strftime shifted (py "%A %I %p"))
  else Ok (py "today", py "tomorrow").

Definition base_context (timeframe new_time : str) : gmap str str :=
  <[py "new_time" := new_time]>
    (<[py "timeframe" := timeframe]>
      (<[py "event" := py "the event"]>
        (<[py "deliverable" := py "the deliverable"]>
          (<[py "action" := py "complete the task"]> ∅)))).

Definition with_custom (custom : option str) (context : gmap str str) : gmap str str :=
  match custom with
  | Some ((_ :: _) as text) =>
      if (len text <? 120) && negb (contains (py ",") text) && contains (py " ") text
      then <[py "deliverable" := text]> context
      else <[py "notes" := text]> context
  | _ => context
  end.

(** The five keys every context has. *)
Definition five_keys : gset str :=
  {[ py "action"; py "deliverable"; py "event"; py "timeframe"; py "new_time" ]}.

(** The weekday, the 12-hour clock time with minutes, and AM/PM. *)
Definition weekday_and_time (dt : DateTime) (m : Z) : str :=
  day_name (weekday dt) ++ py " " ++ pad2 (hour12 (hour dt)) ++ py ":"
  ++ pad2 m ++ py " " ++ am_pm (hour dt).

(** The weekday and the hour [h] on the 12-hour clock, without minutes. *)
Definition weekday_and_hour (dt : DateTime) (h : Z) : str :=
  day_name (weekday dt) ++ py " " ++ pad2 (hour12 h) ++ py " " ++ am_pm h.

(** ** Sample inputs *)

(** Monday 1 January 2024, 22:37:05. *)
Definition monday_night : DateTime :=
  {| year := 2024; month := 1; day := 1; hour := 22; minute := 37; second := 5;
     microsecond := 123 |}.

Definition sample_request (category tone : string) (specificity : Z)
    (length : string) (custom : option str) (seed : option Z) : ExcuseRequest :=
  {| category := py category; audience := py "Manager"; tone := py tone;
     specificity := specificity; length_ := py length;
     custom_context := custom; seed := seed;
     persist_history := false; persist_dir := None |}.

(** The request with its seed replaced. *)
Definition with_seed (request : ExcuseRequest) (s : Z) : ExcuseRequest :=
  {| category := category request; audience := audience request;
     tone := tone request; specificity := specificity request;
     length_ := length_ request; custom_context := custom_context request;
     seed := Some s; persist_history := persist_history request;
     persist_dir := persist_dir request |}.

(** The built-in catalog extended with one category whose template uses the
    [notes] key, which the context has only when the custom context is
    routed there. *)
Definition extended_templates : catalog :=
  _load_templates ++
  [ (py "Follow-up",
      [ (py "Brief", [ py "Noted: {notes}. Update on {deliverable} by {new_time}." ]) ]) ].

(** A generator over the built-in catalog whose random source is [lcg]. *)
Definition lcg_generator (entropy : nat) : ExcuseGenerator (H := lcg) :=
  @new_generator lcg entropy.

Definition extended_generator : ExcuseGenerator (H := lcg) :=
  @Build_ExcuseGenerator lcg 0%nat extended_templates.

(** Whether [template] renders with [context] without raising, and whether
    every template of a catalog does. *)
Definition renders_with (context : gmap str str) (template : str) : bool :=
  match format template context with
  | Ok _ => true
  | Raise _ => false
  end.

Definition catalog_renders (c : catalog) (context : gmap str str) : bool :=
  forallb (λ entry : str * odict (list str),
             forallb (λ t : str * list str, forallb (renders_with context) t.2)
               entry.2) c.

(** The text can be encoded as UTF-8. *)
Definition no_surrogate (s : str) : Prop := existsb is_surrogate s = false.

(** Whether the text ends in a character [strip] removes. *)
Definition ends_with_space (text : str) : bool :=
  match last text with
  | Some c => isspace c
  | None => false
  end.

(** A request that asks to save the history under [/tmp/excuses]. *)
Definition persisting_request : ExcuseRequest :=
  {| category := py "Travel/Commute"; audience := py "Manager"; tone := py "Brief";
     specificity := 2; length_ := py "Medium"; custom_context := None;
     seed := Some 1; persist_history := true;
     persist_dir := Some (py "/tmp/excuses") |}.

Definition empty_session : Session := {| current_excuse := None; history := [] |}.

(** ** More of the caller ([app.py]) *)

(** [render_sidebar_controls]: the request built from the widget values.
    The custom context is trimmed, a seed of 0 means no seed, and the history
    folder is read only when saving is on. *)
Definition render_sidebar_controls (category audience tone : str) (specificity : Z)
    (length : str) (custom_context : str) (seed : Z) (persist_history : bool)
    (history_folder : str) : ExcuseRequest :=
  {| category := category; audience := audience; tone := tone;
     specificity := specificity; length_ := length;
     custom_context := Some (strip custom_context);
     seed := if seed =? 0 then None else Some seed;
     persist_history := persist_history;
     persist_dir := if persist_history then Some history_folder else None |}.

(** [if rephrase_clicked and st.session_state.get("current_excuse"): ...] in
    [render_output_area]: nothing happens without a non-empty current
    excuse. *)
Definition on_rephrase `{RandomSource} (generator : ExcuseGenerator)
    (request : ExcuseRequest) (session : Session) (fs : gmap str node)
    (now today stamp : DateTime)
    : result (ExcuseGenerator * Session * gmap str node) :=
  match current_excuse session with
  | Some ((_ :: _) as current) =>
      '(result, generator) ← rephrase generator request current now;
      let session := {| current_excuse := Some result;
                        history := history session ++ [result] |} in
      fs ← (if persist_history request then persist result today stamp fs else Ok fs);
      Ok (generator, session, fs)
  | _ => Ok (generator, session, fs)
  end.

(** The History tab: [for idx, item in enumerate(reversed(history))] shows
    the number [len(history) - idx] before [item]. *)
Definition history_view (history : list str) : list (Z * str) :=
  imap (λ idx item, (Z.of_nat (length history) - Z.of_nat idx, item))
    (reverse history).

(** The generator after [if seed is not None: self.random.seed(seed)]. *)
Definition seeded `{RandomSource} (self : ExcuseGenerator) (s : option Z)
    : ExcuseGenerator :=
  match s with
  | Some s => set_random self (rng_seed s)
  | None => self
  end.

(** The request without its custom context. *)
Definition without_custom (request : ExcuseRequest) : ExcuseRequest :=
  {| category := category request; audience := audience request;
     tone := tone request; specificity := specificity request;
     length_ := length_ request; custom_context := None;
     seed := seed request; persist_history := persist_history request;
     persist_dir := persist_dir request |}.

(** The request without its seed. *)
Definition without_seed (request : ExcuseRequest) : ExcuseRequest :=
  {| category := category request; audience := audience request;
     tone := tone request; specificity := specificity request;
     length_ := length_ request; custom_context := custom_context request;
     seed := None; persist_history := persist_history request;
     persist_dir := persist_dir request |}.

(** The seed [rephrase] uses for the seed of the request. *)
Definition next_seed (request : ExcuseRequest) : ExcuseRequest :=
  match seed request with
  | Some s => with_seed request (s + 1)
  | None => request
  end.

(** A generator whose only template has a positional field, which
    [format( **context )] cannot fill. *)
Definition positional_generator : ExcuseGenerator (H := lcg) :=
  @Build_ExcuseGenerator lcg 0%nat
    [ (py "General", [ (py "Brief", [ py "Running late, see {}." ]) ]) ].

(** Reading a JSON string back, up to its closing quote: the decoded text
    and what follows the quote.  Used to show that the written record
    determines the text. *)
Definition unhex (d : N) : N := (if d <? 58 then d - 48 else d - 87)%N.

Definition unescape_letter (e : N) : N :=
  if (e =? 110)%N then 10%N
  else if (e =? 114)%N then 13%N
  else if (e =? 116)%N then 9%N
  else if (e =? 98)%N then 8%N
  else if (e =? 102)%N then 12%N
  else e.

Fixpoint json_read_string (s : str) : str * str :=
  match s with
  | [] => ([], [])
  | c :: rest =>
      if (c =? 34)%N then ([], rest)
      else if (c =? 92)%N then
        match rest with
        | [] => ([], [])
        | e :: rest1 =>
            if (e =? 117)%N then
              match rest1 with
              | _ :: _ :: h :: l :: rest2 =>
                  let '(d, r) := json_read_string rest2 in
                  ((16 * unhex h + unhex l)%N :: d, r)
              | _ => ([], [])
              end
            else
              let '(d, r) := json_read_string rest1 in
              (unescape_letter e :: d, r)
        end
      else
        let '(d, r) := json_read_string rest in
        (c :: d, r)
  end.

(** Text without leading or trailing whitespace. *)
Definition trimmed (s : str) : Prop :=
  (∀ c, head s = Some c → isspace c = false)
  ∧ (∀ c, last s = Some c → isspace c = false).

(** * Properties *)

(** ** Results *)

Lemma bind_Ok {A B} (f : A → result B) (m : result A) (b : B) :
  m ≫= f = Ok b → ∃ a, m = Ok a ∧ f a = Ok b.
Proof. destruct m as [a|e]; simpl; [eauto | discriminate]. Qed.

Lemma Ok_bind {A B} (f : A → result B) (a : A) : Ok a ≫= f = f a.
Proof. reflexivity. Qed.

Lemma Raise_bind {A B} (f : A → result B) (e : exn) : Raise e ≫= f = Raise e.
Proof. reflexivity. Qed.

Lemma str_eqb_refl (a : str) : str_eqb a a = true.
Proof. unfold str_eqb. by rewrite bool_decide_eq_true. Qed.

Lemma str_eqb_eq (a b : str) : str_eqb a b = true ↔ a = b.
Proof. unfold str_eqb. by rewrite bool_decide_eq_true. Qed.

(** ** Ordered dictionaries *)

Section odict.
Context {V : Type}.
Implicit Types (d : odict V) (k : str).

Lemma od_get_mem k d :
  od_mem k d = true → ∃ v, od_get k d = Ok v ∧ (k, v) ∈ d.
Proof.
  induction d as [|[k' v] d IH]; simpl; [discriminate|].
  destruct (str_eqb k k') eqn:E; simpl.
  - apply str_eqb_eq in E as ->. intros _. exists v. split; [done | left].
  - intros Hm. destruct (IH Hm) as (w & Hw & Hin).
    exists w. split; [done | by right].
Qed.

Lemma od_get_not_mem k d : od_mem k d = false → od_get k d = Raise (KeyError k).
Proof.
  induction d as [|[k' v] d IH]; simpl; [done|].
  destruct (str_eqb k k'); simpl; [discriminate | exact IH].
Qed.

Lemma od_first_key_mem d k : od_first_key d = Ok k → od_mem k d = true.
Proof.
  destruct d as [|[k' v] d]; simpl; [discriminate|].
  intros [= ->]. by rewrite str_eqb_refl.
Qed.
End odict.

(** ** Template selection *)

Section selection.
Context `{RS : RandomSource}.
Implicit Types (self : ExcuseGenerator) (category tone : str).

Lemma choice_nonempty {A} (r : rng) (seq : list A) :
  seq ≠ [] → ∃ x r', choice r seq = Ok (x, r') ∧ x ∈ seq
                     ∧ seq !! fst (rng_randbelow r (length seq)) = Some x.
Proof.
  intros Hne. destruct seq as [|a seq]; [done|].
  unfold choice.
  pose proof (rng_randbelow_lt r (length (a :: seq))) as Hlt.
  destruct (rng_randbelow r (length (a :: seq))) as [i r'] eqn:E.
  simpl fst in *.
  destruct (lookup_lt_is_Some_2 (a :: seq) i) as [x Hx].
  { apply Hlt. simpl. lia. }
  rewrite Hx. exists x, r'. split; [done|]. split; [|done].
  by eapply list_elem_of_lookup_2.
Qed.

Lemma choose_template_lookup self category tone :
  _choose_template self category tone =
    (candidates ← lookup (templates self) category tone;
     '(template, r) ← choice (random self) candidates;
     Ok (template, set_random self r)).
Proof.
  unfold _choose_template, lookup, resolved_category, resolved_tone.
  destruct (od_get _ (templates self)) as [tones|e]; simpl; [|done].
  destruct (if od_mem tone tones then _ else _) as [t|e]; simpl; [|done].
  by destruct (od_get t tones).
Qed.

Lemma lookup_unknown_category (c : catalog) category tone :
  od_mem category c = false → lookup c category tone = lookup c (py "General") tone.
Proof.
  intros H. unfold lookup, resolved_category. rewrite H.
  by destruct (od_mem (py "General") c).
Qed.

Lemma lookup_unknown_tone (c : catalog) category tone tones first :
  od_get (resolved_category c category) c = Ok tones →
  od_mem tone tones = false →
  od_first_key tones = Ok first →
  lookup c category tone = lookup c category first.
Proof.
  intros Ht Hm Hf. unfold lookup, resolved_tone. rewrite Ht. simpl.
  by rewrite Hm, (od_first_key_mem _ _ Hf), Hf.
Qed.

Lemma lookup_nonempty (c : catalog) category tone :
  catalog_ok c = true → ∃ l, lookup c category tone = Ok l ∧ l ≠ [].
Proof.
  unfold catalog_ok. intros [Hg Hall]%andb_true_iff.
  assert (od_mem (resolved_category c category) c = true) as Hm.
  { unfold resolved_category. by destruct (od_mem category c) eqn:E. }
  destruct (od_get_mem _ _ Hm) as (tones & Hget & Hin).
  rewrite forallb_forall in Hall.
  apply list_elem_of_In, Hall in Hin. cbn [snd] in Hin.
  unfold lookup. rewrite Hget. unfold mbind, result_bind.
  destruct tones as [|[t0 l0] tones]; [done|]. cbv beta iota in Hin.
  assert (∃ t, resolved_tone ((t0, l0) :: tones) tone = Ok t
               ∧ od_mem t ((t0, l0) :: tones) = true) as (t & -> & Htm).
  { unfold resolved_tone. destruct (od_mem tone _) eqn:E; [by eauto|].
    exists t0. split; [done|]. simpl. by rewrite str_eqb_refl. }
  destruct (od_get_mem _ _ Htm) as (l & Hgl & Hl). rewrite Hgl.
  exists l. split; [done|].
  rewrite forallb_forall in Hin. apply list_elem_of_In, Hin in Hl.
  simpl in Hl. by destruct l.
Qed.

(** C6: template selection draws, with the library's [choice], from the
    catalog list at (the category if the catalog has it, otherwise
    General; the tone if the resolved category defines it, otherwise that
    category's first tone in insertion order).  So an unknown category
    behaves as General, and an unknown tone as the first tone. *)
Theorem choose_template_resolves self category tone :
  _choose_template self category tone =
    (candidates ← lookup (templates self) category tone;
     '(template, r) ← choice (random self) candidates;
     Ok (template, set_random self r))
  ∧ (od_mem category (templates self) = false →
     _choose_template self category tone
     = _choose_template self (py "General") tone)
  ∧ (∀ tones first,
       od_get (resolved_category (templates self) category) (templates self)
         = Ok tones →
       od_mem tone tones = false →
       od_first_key tones = Ok first →
       _choose_template self category tone
       = _choose_template self category first).
Proof.
  split; [apply choose_template_lookup|]. split.
  - intros H. rewrite !choose_template_lookup.
    by rewrite (lookup_unknown_category _ _ _ H).
  - intros tones first Ht Hm Hf. rewrite !choose_template_lookup.
    by rewrite (lookup_unknown_tone _ _ _ _ _ Ht Hm Hf).
Qed.

(** C9: on the built-in catalog the fallback-resolved list is never
    empty, whatever the category and tone strings, so the random choice
    inside template selection returns one of its templates. *)
Theorem builtin_lookup_nonempty (entropy : rng) category tone :
  catalog_ok _load_templates = true
  ∧ ∃ l, lookup _load_templates category tone = Ok l ∧ l ≠ []
         ∧ ∃ template self',
             _choose_template (new_generator entropy) category tone
             = Ok (template, self')
             ∧ template ∈ l.
Proof.
  assert (catalog_ok _load_templates = true) as Hok by (vm_compute; reflexivity).
  split; [exact Hok|].
  destruct (lookup_nonempty _load_templates category tone Hok) as (l & Hl & Hne).
  exists l. split; [done|]. split; [done|].
  rewrite choose_template_lookup. simpl templates. rewrite Hl.
  destruct (choice_nonempty entropy l Hne) as (x & r' & Hc & Hin & _).
  exists x, (set_random (new_generator entropy) r'). split; [|done].
  unfold mbind, result_bind. simpl random. by rewrite Hc.
Qed.
End selection.

Lemma choose_template_resolves_witness :
  let g := lcg_generator 7 in
  _choose_template g (py "Holiday") (py "Grumpy")
  = _choose_template g (py "General") (py "Professional").
Proof.
  intros g.
  destruct (choose_template_resolves (RS := lcg) g (py "Holiday") (py "Grumpy"))
    as (_ & Hc & _).
  rewrite Hc by (vm_compute; reflexivity).
  destruct (choose_template_resolves (RS := lcg) g (py "General") (py "Grumpy"))
    as (_ & _ & Ht).
  eapply Ht; vm_compute; reflexivity.
Defined.

(** ** Time *)

Lemma datetime_ok_iff dt :
  datetime_ok dt = true ↔
  (1 ≤ year dt ≤ 9999 ∧ 1 ≤ month dt ≤ 12
   ∧ 1 ≤ day dt ≤ _days_in_month (year dt) (month dt)
   ∧ 0 ≤ hour dt < 24 ∧ 0 ≤ minute dt < 60 ∧ 0 ≤ second dt < 60
   ∧ 0 ≤ microsecond dt < 1000000).
Proof.
  unfold datetime_ok. rewrite !andb_true_iff, !Z.leb_le, !Z.ltb_lt. tauto.
Qed.

Lemma replace_minute_ok dt m :
  datetime_ok dt = true → 0 ≤ m < 60 →
  ∃ dt', replace_minute dt m = Ok dt'
         ∧ year dt' = year dt ∧ month dt' = month dt ∧ day dt' = day dt
         ∧ hour dt' = hour dt ∧ minute dt' = m.
Proof.
  intros Hok Hm. unfold replace_minute.
  match goal with |- context [datetime_ok ?d] =>
    assert (datetime_ok d = true) as ->
  end.
  { apply datetime_ok_iff in Hok. apply datetime_ok_iff. simpl. tauto. }
  eexists. split; [reflexivity|]. simpl. tauto.
Qed.

Lemma replace_hour_ok dt h :
  datetime_ok dt = true → 0 ≤ h < 24 →
  ∃ dt', replace_hour dt h = Ok dt'
         ∧ year dt' = year dt ∧ month dt' = month dt ∧ day dt' = day dt
         ∧ hour dt' = h ∧ minute dt' = minute dt.
Proof.
  intros Hok Hh. unfold replace_hour.
  match goal with |- context [datetime_ok ?d] =>
    assert (datetime_ok d = true) as ->
  end.
  { apply datetime_ok_iff in Hok. apply datetime_ok_iff. simpl. tauto. }
  eexists. split; [reflexivity|]. simpl. tauto.
Qed.

Lemma weekday_same_date dt dt' :
  year dt' = year dt → month dt' = month dt → day dt' = day dt →
  weekday dt' = weekday dt.
Proof. unfold weekday. by intros -> -> ->. Qed.

Lemma strftime_weekday_time dt :
  strftime dt (py "%A %I:%M %p") = weekday_and_time dt (minute dt).
Proof.
  unfold weekday_and_time. rewrite <- (app_nil_r (am_pm (hour dt))). reflexivity.
Qed.

Lemma strftime_weekday dt : strftime dt (py "%A") = day_name (weekday dt).
Proof. rewrite <- (app_nil_r (day_name _)). reflexivity. Qed.

Lemma strftime_weekday_hour dt :
  strftime dt (py "%A %I %p") = weekday_and_hour dt (hour dt).
Proof.
  unfold weekday_and_hour. rewrite <- (app_nil_r (am_pm (hour dt))). reflexivity.
Qed.

(** ** The context builder *)

Lemma build_context_parts now request :
  _build_context now request =
    ('(timeframe, new_time) ← time_fields now (specificity request);
     Ok (with_custom (custom_context request) (base_context timeframe new_time))).
Proof. reflexivity. Qed.

Lemma time_fields_high now spec :
  datetime_ok now = true → 7 ≤ spec →
  time_fields now spec =
    Ok (weekday_and_time now (minute now),
        weekday_and_time now (minute now - minute now mod 15)).
Proof.
  intros Hok Hs. unfold time_fields.
  apply Z.leb_le in Hs as ->.
  pose proof Hok as Hr. apply datetime_ok_iff in Hr.
  destruct (replace_minute_ok now (minute now / 15 * 15) Hok)
    as (dt' & -> & Hy & Hm & Hd & Hh & Hmin).
  { Z.to_euclidean_division_equations. lia. }
  rewrite Ok_bind, !strftime_weekday_time. unfold weekday_and_time.
  rewrite (weekday_same_date _ _ Hy Hm Hd), Hh, Hmin.
  by replace (minute now / 15 * 15) with (minute now - minute now mod 15)
    by (Z.to_euclidean_division_equations; lia).
Qed.

Lemma time_fields_mid now spec :
  datetime_ok now = true → 4 ≤ spec < 7 →
  time_fields now spec =
    Ok (day_name (weekday now), weekday_and_hour now ((hour now + 3) mod 24)).
Proof.
  intros Hok [Hlo Hhi]. unfold time_fields.
  assert ((7 <=? spec) = false) as -> by (apply Z.leb_gt; lia).
  apply Z.leb_le in Hlo as ->.
  destruct (replace_hour_ok now ((hour now + 3) mod 24) Hok)
    as (dt' & -> & Hy & Hm & Hd & Hh & _).
  { apply Z.mod_pos_bound. lia. }
  rewrite Ok_bind, strftime_weekday, strftime_weekday_hour. unfold weekday_and_hour.
  by rewrite (weekday_same_date _ _ Hy Hm Hd), Hh.
Qed.

Lemma time_fields_low now spec :
  spec < 4 → time_fields now spec = Ok (py "today", py "tomorrow").
Proof.
  intros Hs. unfold time_fields.
  assert ((7 <=? spec) = false) as -> by (apply Z.leb_gt; lia).
  by assert ((4 <=? spec) = false) as -> by (apply Z.leb_gt; lia).
Qed.

Ltac key_neq := vm_compute; discriminate.

Lemma time_fields_total now spec :
  datetime_ok now = true → ∃ timeframe new_time,
    time_fields now spec = Ok (timeframe, new_time).
Proof.
  intros Hok.
  destruct (Z_lt_le_dec spec 4) as [Hlow|Hlo].
  { rewrite time_fields_low by done. eauto. }
  destruct (Z_lt_le_dec spec 7) as [Hmid|Hhigh].
  - rewrite time_fields_mid by done. eauto.
  - rewrite time_fields_high by done. eauto.
Qed.

Lemma base_context_dom timeframe new_time :
  dom (base_context timeframe new_time) = five_keys.
Proof.
  unfold base_context, five_keys. rewrite !dom_insert_L, dom_empty_L. set_solver.
Qed.

Lemma base_context_timeframe timeframe new_time :
  base_context timeframe new_time !! py "timeframe" = Some timeframe.
Proof.
  unfold base_context.
  rewrite lookup_insert_ne by key_neq. apply lookup_insert_eq.
Qed.

Lemma base_context_new_time timeframe new_time :
  base_context timeframe new_time !! py "new_time" = Some new_time.
Proof. unfold base_context. apply lookup_insert_eq. Qed.

Lemma base_context_deliverable timeframe new_time :
  base_context timeframe new_time !! py "deliverable" = Some (py "the deliverable").
Proof.
  unfold base_context.
  do 3 (rewrite lookup_insert_ne by key_neq). apply lookup_insert_eq.
Qed.

Lemma base_context_notes timeframe new_time :
  base_context timeframe new_time !! py "notes" = None.
Proof.
  apply not_elem_of_dom. rewrite base_context_dom. unfold five_keys.
  rewrite !elem_of_union, !elem_of_singleton.
  intros [[[[H|H]|H]|H]|H]; revert H; key_neq.
Qed.

(** Routing the custom context leaves every key but [deliverable] and
    [notes] alone. *)
Lemma with_custom_other custom context key :
  key ≠ py "deliverable" → key ≠ py "notes" →
  with_custom custom context !! key = context !! key.
Proof.
  intros Hd Hn. unfold with_custom.
  destruct custom as [[|c text]|]; [done| |done].
  destruct (_ && _); by rewrite lookup_insert_ne.
Qed.

Lemma build_context_time now request timeframe new_time :
  time_fields now (specificity request) = Ok (timeframe, new_time) →
  ∃ context, _build_context now request = Ok context
             ∧ context !! py "timeframe" = Some timeframe
             ∧ context !! py "new_time" = Some new_time.
Proof.
  intros Ht. rewrite build_context_parts, Ht, Ok_bind.
  eexists. split; [reflexivity|].
  rewrite !with_custom_other by key_neq.
  by rewrite base_context_timeframe, base_context_new_time.
Qed.

(** C7: the context builder sets [timeframe] and [new_time] by specificity
    band: from 7 up, the weekday with the exact 12-hour time, and the same
    with the minutes rounded down to a multiple of 15; from 4 to 6, the bare
    weekday name, and the weekday with the hour advanced by 3 modulo 24 and
    no minutes; below 4, the literals today and tomorrow. *)
Theorem build_context_time_bands now request :
  datetime_ok now = true →
  ∃ context, _build_context now request = Ok context
    ∧ (7 ≤ specificity request →
         context !! py "timeframe" = Some (weekday_and_time now (minute now))
         ∧ context !! py "new_time"
           = Some (weekday_and_time now (minute now - minute now mod 15)))
    ∧ (4 ≤ specificity request < 7 →
         context !! py "timeframe" = Some (day_name (weekday now))
         ∧ context !! py "new_time"
           = Some (weekday_and_hour now ((hour now + 3) mod 24)))
    ∧ (specificity request < 4 →
         context !! py "timeframe" = Some (py "today")
         ∧ context !! py "new_time" = Some (py "tomorrow")).
Proof.
  intros Hok.
  destruct (time_fields_total now (specificity request) Hok) as (tf & nt & Ht).
  destruct (build_context_time _ _ _ _ Ht) as (context & Hc & Htf & Hnt).
  exists context. split; [done|]. rewrite Htf, Hnt.
  split; [|split]; intros Hs.
  - rewrite time_fields_high in Ht by done. by injection Ht as <- <-.
  - rewrite time_fields_mid in Ht by done. by injection Ht as <- <-.
  - rewrite time_fields_low in Ht by done. by injection Ht as <- <-.
Qed.

Lemma build_context_time_bands_witness :
  ∃ context,
    _build_context monday_night
      (sample_request "General" "Brief" 8 "Medium" None None) = Ok context
    ∧ context !! py "timeframe" = Some (py "Monday 10:37 PM")
    ∧ context !! py "new_time" = Some (py "Monday 10:30 PM").
Proof.
  destruct (build_context_time_bands monday_night
              (sample_request "General" "Brief" 8 "Medium" None None))
    as (context & Hc & Hhigh & _); [vm_compute; reflexivity|].
  exists context. split; [exact Hc|].
  destruct Hhigh as [Htf Hnt]; [simpl; lia|].
  split; [rewrite Htf | rewrite Hnt]; vm_compute; reflexivity.
Defined.

(** C10: with specificity from 4 to 6 the weekday in [new_time] is the
    current day's: advancing the hour by 3 modulo 24 replaces the hour only,
    so the date, and the weekday with it, stays also when the hour wraps
    past midnight. *)
Theorem new_time_keeps_weekday now request :
  datetime_ok now = true → 4 ≤ specificity request < 7 →
  ∃ context shifted,
    _build_context now request = Ok context
    ∧ replace_hour now ((hour now + 3) mod 24) = Ok shifted
    ∧ year shifted = year now ∧ month shifted = month now ∧ day shifted = day now
    ∧ weekday shifted = weekday now
    ∧ context !! py "new_time"
      = Some (day_name (weekday now) ++ py " "
              ++ pad2 (hour12 ((hour now + 3) mod 24)) ++ py " "
              ++ am_pm ((hour now + 3) mod 24)).
Proof.
  intros Hok Hs.
  pose proof (time_fields_mid now _ Hok Hs) as Ht.
  destruct (build_context_time _ _ _ _ Ht) as (context & Hc & _ & Hnt).
  destruct (replace_hour_ok now ((hour now + 3) mod 24) Hok)
    as (shifted & Hr & Hy & Hm & Hd & _).
  { apply Z.mod_pos_bound. lia. }
  exists context, shifted.
  by rewrite (weekday_same_date _ _ Hy Hm Hd).
Qed.

Lemma new_time_keeps_weekday_witness :
  ∃ context,
    _build_context monday_night
      (sample_request "General" "Brief" 5 "Medium" None None) = Ok context
    ∧ context !! py "new_time" = Some (py "Monday 01 AM").
Proof.
  destruct (new_time_keeps_weekday monday_night
              (sample_request "General" "Brief" 5 "Medium" None None))
    as (context & shifted & Hc & _ & _ & _ & _ & _ & Hnt).
  - vm_compute; reflexivity.
  - simpl. lia.
  - exists context. split; [exact Hc|]. rewrite Hnt. vm_compute. reflexivity.
Defined.

Lemma with_custom_override text context :
  text ≠ [] → len text < 120 →
  contains (py ",") text = false → contains (py " ") text = true →
  with_custom (Some text) context = <[py "deliverable" := text]> context.
Proof.
  intros Hne Hlen Hcomma Hspace. unfold with_custom.
  destruct text as [|c text]; [done|]. cbv beta iota.
  apply Z.ltb_lt in Hlen. by rewrite Hlen, Hcomma, Hspace.
Qed.

Lemma with_custom_notes text context :
  text ≠ [] →
  ¬ (len text < 120 ∧ contains (py ",") text = false
     ∧ contains (py " ") text = true) →
  with_custom (Some text) context = <[py "notes" := text]> context.
Proof.
  intros Hne Hnot. unfold with_custom.
  destruct text as [|c text]; [done|]. cbv beta iota.
  destruct (len (c :: text) <? 120) eqn:Hlen; [|done].
  destruct (contains (py ",") (c :: text)) eqn:Hcomma; [done|].
  destruct (contains (py " ") (c :: text)) eqn:Hspace; [|done].
  apply Z.ltb_lt in Hlen. tauto.
Qed.

(** C8: a non-empty custom context under 120 characters with no comma and
    at least one space becomes [deliverable]; any other non-empty custom
    context leaves [deliverable] at its default and is stored under [notes];
    an empty or absent one changes nothing, and the context has exactly the
    five keys. *)
Theorem build_context_custom now request :
  datetime_ok now = true →
  ∃ context, _build_context now request = Ok context
    ∧ (∀ text, custom_context request = Some text → text ≠ [] →
         (len text < 120 ∧ contains (py ",") text = false
          ∧ contains (py " ") text = true →
          context !! py "deliverable" = Some text
          ∧ dom context = five_keys)
         ∧ (¬ (len text < 120 ∧ contains (py ",") text = false
               ∧ contains (py " ") text = true) →
            context !! py "deliverable" = Some (py "the deliverable")
            ∧ context !! py "notes" = Some text
            ∧ dom context = five_keys ∪ {[py "notes"]}))
    ∧ (custom_context request = None ∨ custom_context request = Some [] →
       context !! py "deliverable" = Some (py "the deliverable")
       ∧ dom context = five_keys).
Proof.
  intros Hok.
  destruct (time_fields_total now (specificity request) Hok) as (tf & nt & Ht).
  rewrite build_context_parts, Ht, Ok_bind.
  eexists. split; [reflexivity|]. split.
  - intros text -> Hne. split.
    + intros (Hlen & Hcomma & Hspace).
      rewrite with_custom_override by done.
      rewrite lookup_insert_eq, dom_insert_L, base_context_dom.
      split; [done|]. unfold five_keys. set_solver.
    + intros Hnot. rewrite with_custom_notes by done.
      rewrite lookup_insert_ne by key_neq.
      rewrite lookup_insert_eq, dom_insert_L, base_context_dom, base_context_deliverable.
      split; [done|]. split; [done|]. set_solver.
  - intros [-> | ->]; simpl; by rewrite base_context_deliverable, base_context_dom.
Qed.

Lemma build_context_custom_witness :
  ∃ context,
    _build_context monday_night
      (sample_request "General" "Brief" 2 "Medium" (Some (py "client demo")) None)
    = Ok context
    ∧ context !! py "deliverable" = Some (py "client demo")
    ∧ dom context = five_keys.
Proof.
  destruct (build_context_custom monday_night
              (sample_request "General" "Brief" 2 "Medium"
                 (Some (py "client demo")) None))
    as (context & Hc & Hsome & _); [vm_compute; reflexivity|].
  exists context. split; [exact Hc|].
  destruct (Hsome (py "client demo")) as [Hover _];
    [reflexivity | vm_compute; discriminate |].
  apply Hover. split; [vm_compute; reflexivity|].
  split; vm_compute; reflexivity.
Defined.

(** ** Generation *)

Section generation.
Context `{RS : RandomSource}.
Implicit Types (self : ExcuseGenerator) (request : ExcuseRequest).

Lemma set_random_templates self self' (r : rng) :
  templates self = templates self' → set_random self r = set_random self' r.
Proof. unfold set_random. by intros ->. Qed.

(** C3: with a seed in the request, [generate] is a function of the
    request and the time alone: two generators with the same catalog, in
    whatever random state, choose the same template and return the same
    text. *)
Theorem generate_deterministic self self' request now s :
  seed request = Some s →
  templates self = templates self' →
  _choose_template (set_random self (rng_seed s)) (category request) (tone request)
  = _choose_template (set_random self' (rng_seed s)) (category request) (tone request)
  ∧ generate self request now = generate self' request now.
Proof.
  intros Hs Ht. unfold generate. rewrite Hs.
  by rewrite (set_random_templates self self' _ Ht).
Qed.

(** C4: with seed [s] in the request, [rephrase] seeds the random source
    with [s + 1] and selects the template [generate] selects with seed
    [s + 1]; the prior text and the random state before the call have no
    influence on the result. *)
Theorem rephrase_uses_next_seed self self' request base_text base_text' now s :
  seed request = Some s →
  templates self = templates self' →
  rephrase self request base_text now = rephrase self' request base_text' now
  ∧ (∀ template g,
       _choose_template (set_random self (rng_seed (s + 1)))
         (category request) (tone request) = Ok (template, g) →
       rephrase self request base_text now
       = (context ← _build_context now request;
          text ← format template context;
          _vary g text request)
       ∧ generate self' (with_seed request (s + 1)) now
         = (context ← _build_context now request;
            text ← match format template context with
                   | Raise (KeyError _) => Ok template
                   | rendered => rendered
                   end;
            _vary g text request))
  ∧ (∀ out, rephrase self request base_text now = Ok out →
            generate self' (with_seed request (s + 1)) now = Ok out).
Proof.
  intros Hs Ht.
  assert (generate self' (with_seed request (s + 1)) now
          = ('(template, g) ← _choose_template (set_random self (rng_seed (s + 1)))
                                (category request) (tone request);
             context ← _build_context now request;
             text ← match format template context with
                    | Raise (KeyError _) => Ok template
                    | rendered => rendered
                    end;
             _vary g text request)) as Hgen.
  { rewrite (set_random_templates self self' _ Ht). reflexivity. }
  rewrite Hgen.
  unfold rephrase. rewrite Hs.
  rewrite <- (set_random_templates self self' _ Ht).
  split; [done|]. split.
  - intros template g ->. by rewrite !Ok_bind.
  - intros out.
    destruct (_choose_template _ _ _) as [[template g]|e]; [|done].
    rewrite !Ok_bind.
    destruct (_build_context now request) as [context|e]; [|done].
    rewrite !Ok_bind.
    destruct (format template context) as [text|e]; [|done].
    by rewrite !Ok_bind.
Qed.

(** The fallback of [generate]: a missing key renders the template as it
    is. *)
Lemma generate_missing_key self request now template g context key :
  _choose_template
    match seed request with
    | Some s => set_random self (rng_seed s)
    | None => self
    end (category request) (tone request) = Ok (template, g) →
  _build_context now request = Ok context →
  format template context = Raise (KeyError key) →
  generate self request now = _vary g template request.
Proof.
  intros Hc Hb Hf. unfold generate. by rewrite Hc, Ok_bind, Hb, Ok_bind, Hf.
Qed.

(** [rephrase] has no such fallback: the [KeyError] reaches the caller. *)
Lemma rephrase_missing_key self request base_text now template g context key :
  _choose_template
    match seed request with
    | Some s => set_random self (rng_seed (s + 1))
    | None => self
    end (category request) (tone request) = Ok (template, g) →
  _build_context now request = Ok context →
  format template context = Raise (KeyError key) →
  rephrase self request base_text now = Raise (KeyError key).
Proof.
  intros Hc Hb Hf. unfold rephrase. by rewrite Hc, Ok_bind, Hb, Ok_bind, Hf.
Qed.
End generation.

Lemma generate_deterministic_witness :
  let request := sample_request "General" "Casual" 8 "Long" None (Some 42) in
  generate (lcg_generator 3) request monday_night
  = generate (lcg_generator 1000) request monday_night.
Proof.
  intros request.
  apply (generate_deterministic (RS := lcg) (lcg_generator 3)
           (lcg_generator 1000) request monday_night 42); reflexivity.
Defined.

Lemma rephrase_uses_next_seed_witness :
  let request := sample_request "General" "Casual" 8 "Long" None (Some 42) in
  rephrase (lcg_generator 3) request (py "an earlier excuse") monday_night
  = generate (lcg_generator 1000) (with_seed request 43) monday_night.
Proof.
  intros request.
  destruct (rephrase_uses_next_seed (RS := lcg) (lcg_generator 3)
              (lcg_generator 1000) request (py "an earlier excuse") []
              monday_night 42) as (_ & _ & Hgen); [reflexivity | reflexivity |].
  destruct (rephrase (lcg_generator 3) request (py "an earlier excuse")
              monday_night) as [out|e] eqn:E.
  - symmetry. by apply Hgen.
  - vm_compute in E. discriminate E.
Defined.

(** C1: a template that names a key the context lacks.  [generate] returns
    the template text as it is; [rephrase], on the same generator and
    request, raises the [KeyError]. *)
Theorem rephrase_raises_on_missing_placeholder :
  let request := sample_request "Follow-up" "Brief" 2 "Medium" None (Some 7) in
  (∃ g, generate extended_generator request monday_night
        = Ok (py "Noted: {notes}. Update on {deliverable} by {new_time}.", g))
  ∧ rephrase extended_generator request (py "an earlier excuse") monday_night
    = Raise (KeyError (py "notes")).
Proof.
  intros request. split.
  - eexists. vm_compute. reflexivity.
  - vm_compute. reflexivity.
Qed.

(** ** Persistence *)

Lemma hex_digit_ge n : (48 ≤ hex_digit n)%N.
Proof. unfold hex_digit. destruct (n <? 10)%N; lia. Qed.

Ltac eval_py :=
  repeat match goal with
         | |- context [py ?s] =>
             let l := eval vm_compute in (py s) in change (py s) with l
         end.

Lemma json_escape_char_no_newline c : 10%N ∉ json_escape_char c.
Proof.
  unfold json_escape_char.
  pose proof (hex_digit_ge (c / 16)). pose proof (hex_digit_ge (c mod 16)).
  repeat case_match; eval_py;
    repeat match goal with
           | H : (_ =? _)%N = false |- _ => apply N.eqb_neq in H
           end;
    rewrite ?elem_of_app, ?elem_of_cons, ?elem_of_nil; lia.
Qed.

Lemma json_string_no_newline s : 10%N ∉ json_string s.
Proof.
  unfold json_string. rewrite !elem_of_app, !list_elem_of_singleton.
  intros [H | [H | H]]; [lia | | lia].
  apply list_elem_of_join in H as (piece & Hin & Hpiece).
  apply list_elem_of_fmap in Hpiece as (c & -> & _).
  by apply json_escape_char_no_newline in Hin.
Qed.

(** A record is one line: the only newline of what [persist] writes is the
    one it appends. *)
Lemma json_dumps_record_one_line timestamp text :
  10%N ∉ json_dumps_record timestamp text.
Proof.
  unfold json_dumps_record.
  pose proof (json_string_no_newline (py "timestamp")).
  pose proof (json_string_no_newline timestamp).
  pose proof (json_string_no_newline (py "text")).
  pose proof (json_string_no_newline text).
  eval_py. rewrite !elem_of_app, ?elem_of_cons, ?elem_of_nil.
  intuition lia.
Qed.

Lemma no_surrogate_app a b : no_surrogate (a ++ b) ↔ no_surrogate a ∧ no_surrogate b.
Proof. unfold no_surrogate. rewrite existsb_app, orb_false_iff. tauto. Qed.

Lemma no_surrogate_below s : Forall (λ c, c < 55296)%N s → no_surrogate s.
Proof.
  unfold no_surrogate. induction 1 as [|c s Hc _ IH]; [done|]. simpl.
  rewrite IH, orb_false_r. unfold is_surrogate.
  apply andb_false_iff. left. apply N.leb_gt. lia.
Qed.

Lemma digit_below n : (digit n < 55296)%N.
Proof. unfold digit. pose proof (Z.mod_pos_bound n 10). lia. Qed.

Lemma pad2_below n : Forall (λ c, c < 55296)%N (pad2 n).
Proof. unfold pad2. repeat constructor; apply digit_below. Qed.

Lemma pad4_below n : Forall (λ c, c < 55296)%N (pad4 n).
Proof. unfold pad4. apply Forall_app. split; apply pad2_below. Qed.

Lemma pad6_below n : Forall (λ c, c < 55296)%N (pad6 n).
Proof. unfold pad6. apply Forall_app. split; [apply pad2_below | apply pad4_below]. Qed.

Lemma isoformat_below dt : Forall (λ c, c < 55296)%N (isoformat dt).
Proof.
  unfold isoformat. eval_py. rewrite !Forall_app, !Forall_singleton.
  repeat split; try apply pad2_below; try apply pad4_below; try lia.
  destruct (microsecond dt =? 0); [constructor|].
  apply Forall_cons. split; [lia | apply pad6_below].
Qed.

Lemma hex_digit_below n : (n < 16)%N → (hex_digit n < 55296)%N.
Proof. intros Hn. unfold hex_digit. destruct (n <? 10)%N; lia. Qed.

Lemma json_escape_char_no_surrogate c :
  is_surrogate c = false → no_surrogate (json_escape_char c).
Proof.
  intros Hc. unfold json_escape_char.
  repeat case_match; eval_py; try reflexivity.
  - match goal with H : (c <? 32)%N = true |- _ => apply N.ltb_lt in H end.
    apply no_surrogate_below.
    repeat constructor; try lia; apply hex_digit_below.
    + apply N.Div0.div_lt_upper_bound. lia.
    + apply N.mod_lt. lia.
  - unfold no_surrogate. simpl. by rewrite Hc.
Qed.

Lemma json_string_no_surrogate s : no_surrogate s → no_surrogate (json_string s).
Proof.
  intros Hs. unfold json_string.
  rewrite !no_surrogate_app. split; [reflexivity|]. split; [|reflexivity].
  induction s as [|c s IH]; [reflexivity|].
  change (c :: s) with ([c] ++ s) in Hs. apply no_surrogate_app in Hs as [Hc Hs].
  rewrite fmap_cons. simpl mjoin. apply no_surrogate_app. split; [|by apply IH].
  apply json_escape_char_no_surrogate.
  unfold no_surrogate in Hc. simpl in Hc. by rewrite orb_false_r in Hc.
Qed.

Lemma record_line_no_surrogate text stamp :
  no_surrogate text → no_surrogate (record_line (text, stamp)).
Proof.
  intros Ht. unfold record_line, json_dumps_record. simpl fst. simpl snd.
  rewrite !no_surrogate_app.
  pose proof (json_string_no_surrogate text Ht).
  pose proof (json_string_no_surrogate (isoformat stamp)
                (no_surrogate_below _ (isoformat_below stamp))).
  repeat split; try done.
Qed.

Lemma history_file_not_dir today : history_file (py ".history") today ≠ py ".history".
Proof.
  unfold history_file. eval_py. intros H.
  apply (f_equal length) in H. rewrite !length_app in H. simpl in H. lia.
Qed.

(** What one call writes when nothing is in its way: the directory is
    created if absent and one line, the record, is appended to the day's
    file. *)
Lemma persist_appends text today stamp fs :
  (∀ content, fs !! py ".history" ≠ Some (File content)) →
  fs !! history_file (py ".history") today ≠ Some Dir →
  no_surrogate text →
  persist text today stamp fs
  = Ok (<[history_file (py ".history") today :=
            File (file_content fs (history_file (py ".history") today)
                  ++ record_line (text, stamp))]>
          (<[py ".history" := Dir]> fs)).
Proof.
  intros Hdir Hfile Htext. unfold persist, mkdir_exist_ok.
  pose proof (record_line_no_surrogate text stamp Htext) as Hline.
  unfold no_surrogate, record_line in Hline. simpl fst in Hline. simpl snd in Hline.
  assert (∀ fs' : gmap str node,
            fs' !! history_file (py ".history") today
              = fs !! history_file (py ".history") today →
            append_text (history_file (py ".history") today)
              (json_dumps_record (isoformat stamp) text ++ [10%N]) fs'
            = Ok (<[history_file (py ".history") today :=
                      File (file_content fs (history_file (py ".history") today)
                            ++ record_line (text, stamp))]> fs')) as Happend.
  { intros fs' Hsame. unfold append_text, file_content, record_line.
    rewrite Hsame, Hline.
    destruct (fs !! history_file (py ".history") today) as [[|old]|]; done. }
  destruct (fs !! py ".history") as [[|content]|] eqn:Hd.
  - rewrite Ok_bind, (insert_id fs _ _ Hd). by apply Happend.
  - by destruct (Hdir content).
  - rewrite Ok_bind. apply Happend.
    apply lookup_insert_ne. intros H. symmetry in H.
    by apply history_file_not_dir in H.
Qed.

Lemma mjoin_cons {A} (x : list A) (ls : list (list A)) :
  mjoin (x :: ls) = x ++ mjoin ls.
Proof. reflexivity. Qed.

(** Calls in a row on one day append their lines in call order. *)
Lemma persist_all_appends calls today fs :
  (∀ content, fs !! py ".history" ≠ Some (File content)) →
  fs !! history_file (py ".history") today ≠ Some Dir →
  Forall (λ call, no_surrogate call.1) calls →
  ∃ fs', persist_all calls today fs = Ok fs'
         ∧ file_content fs' (history_file (py ".history") today)
           = file_content fs (history_file (py ".history") today)
             ++ mjoin (record_line <$> calls).
Proof.
  intros Hdir Hfile Hcalls. revert fs Hdir Hfile.
  induction Hcalls as [|[text stamp] calls Htext _ IH]; intros fs Hdir Hfile.
  { exists fs. split; [done|]. by rewrite app_nil_r. }
  simpl in Htext.
  simpl persist_all. rewrite (persist_appends _ _ _ _ Hdir Hfile Htext), Ok_bind.
  match goal with |- context [persist_all calls today ?m] => set (fs1 := m) end.
  destruct (IH fs1) as (fs' & Hall & Hcontent).
  - intros content. unfold fs1.
    rewrite lookup_insert_ne by apply history_file_not_dir.
    by rewrite lookup_insert_eq.
  - unfold fs1. by rewrite lookup_insert_eq.
  - exists fs'. split; [done|]. rewrite Hcontent.
    unfold fs1 at 1. unfold file_content at 1. rewrite lookup_insert_eq.
    by rewrite fmap_cons, mjoin_cons, <- app_assoc.
Qed.

Lemma filter_newline_absent (l : str) :
  10%N ∉ l → filter (λ c, c = 10%N) l = [].
Proof.
  induction l as [|c l IH]; [done|].
  rewrite not_elem_of_cons. intros [Hc Hl].
  rewrite filter_cons_False by congruence. by apply IH.
Qed.

(** The lines of [n] calls hold [n] newlines: one record per line. *)
Lemma record_lines_count calls :
  length (filter (λ c, c = 10%N) (mjoin (record_line <$> calls))) = length calls.
Proof.
  induction calls as [|[text stamp] calls IH]; [done|].
  rewrite fmap_cons, mjoin_cons, filter_app, length_app, IH.
  unfold record_line. simpl fst. simpl snd.
  rewrite filter_app, filter_newline_absent by apply json_dumps_record_one_line.
  reflexivity.
Qed.

(** C2: the request names [/tmp/excuses] as the history folder and asks to
    save; the record is written under [.history], and nothing is created
    at or under [/tmp/excuses]. *)
Theorem persist_ignores_persist_dir :
  persist_dir persisting_request = Some (py "/tmp/excuses")
  ∧ ∃ g fs,
      on_generate (lcg_generator 0) persisting_request empty_session ∅
        monday_night monday_night monday_night
      = Ok (g,
            {| current_excuse := Some (py "Running late due to traffic. ETA tomorrow.");
               history := [py "Running late due to traffic. ETA tomorrow."] |},
            fs)
      ∧ fs = <[py ".history/history_20240101.jsonl" :=
                 File (json_dumps_record (py "2024-01-01T22:37:05.000123")
                         (py "Running late due to traffic. ETA tomorrow.")
                       ++ [10%N])]>
               (<[py ".history" := Dir]> ∅)
      ∧ ∀ path, startswith (py "/tmp/excuses") path = true → fs !! path = None.
Proof.
  split; [reflexivity|]. eexists _, _.
  split; [|split; [reflexivity|]].
  - vm_compute. reflexivity.
  - intros path Hpath.
    destruct (decide (path = py ".history/history_20240101.jsonl")) as [->|Hfile];
      [vm_compute in Hpath; discriminate|].
    destruct (decide (path = py ".history")) as [->|Hdir];
      [vm_compute in Hpath; discriminate|].
    by rewrite !lookup_insert_ne, lookup_empty.
Qed.

(** ** Strings: [split], [strip] *)

Section strings.
Implicit Types (sep s a b : str) (c : N).

Lemma startswith_length sep s :
  startswith sep s = true → (length sep ≤ length s)%nat.
Proof.
  revert s. induction sep as [|x sep IH]; intros [|y s]; simpl; try lia; try done.
  intros [_ H]%andb_true_iff. apply IH in H. lia.
Qed.

Lemma startswith_app sep a b :
  (length sep ≤ length a)%nat → startswith sep (a ++ b) = startswith sep a.
Proof.
  revert a. induction sep as [|x sep IH]; intros [|y a]; simpl; try lia; try done.
  intros H. rewrite IH by lia. done.
Qed.

Lemma contains_length sep s :
  contains sep s = true → (length sep ≤ length s)%nat.
Proof.
  induction s as [|c s IH]; simpl.
  - rewrite orb_false_r. apply startswith_length.
  - intros [H|H]%orb_true_iff; [by apply startswith_length in H|].
    apply IH in H. lia.
Qed.

Lemma contains_cons sep c s :
  contains sep (c :: s) = startswith sep (c :: s) || contains sep s.
Proof. reflexivity. Qed.

Lemma split_first_cons sep c s :
  split_first sep (c :: s)
  = if startswith sep (c :: s) then [] else c :: split_first sep s.
Proof. reflexivity. Qed.

(** When [a] holds the separator, what follows [a] does not matter. *)
Lemma split_first_app_l sep a b :
  contains sep a = true → split_first sep (a ++ b) = split_first sep a.
Proof.
  induction a as [|c a IH]; intros H.
  - simpl in H. rewrite orb_false_r in H. destruct sep; [|done]. by destruct b.
  - pose proof (contains_length _ _ H) as Hlen.
    rewrite <- app_comm_cons, !split_first_cons, app_comm_cons.
    rewrite (startswith_app _ _ _ Hlen).
    rewrite contains_cons in H.
    destruct (startswith sep (c :: a)); [done|]. by rewrite IH.
Qed.

(** Without the separator, [split] returns the text whole. *)
Lemma split_first_absent sep s : contains sep s = false → split_first sep s = s.
Proof.
  induction s as [|c s IH]; [done|].
  rewrite contains_cons, split_first_cons. intros [-> H]%orb_false_iff.
  by rewrite IH.
Qed.

(** With the separator, the first piece leaves room for it. *)
Lemma split_first_present sep s :
  contains sep s = true →
  (length (split_first sep s) + length sep ≤ length s)%nat.
Proof.
  induction s as [|c s IH].
  - simpl. rewrite orb_false_r. intros H%startswith_length. simpl in *. lia.
  - rewrite contains_cons, split_first_cons.
    destruct (startswith sep (c :: s)) eqn:E.
    + intros _. apply startswith_length in E. simpl in *. lia.
    + simpl. intros H%IH. lia.
Qed.

Lemma isspace_not_period c : isspace c = true → (46 =? c)%N = false.
Proof. destruct (N.eqb_spec 46 c) as [<-|]; [discriminate | done]. Qed.

Lemma startswith_sentence_space c s :
  isspace c = true → startswith (py ". ") (c :: s) = false.
Proof.
  intros H%isspace_not_period. change (py ". ") with [46; 32]%N.
  cbn [startswith]. by rewrite H.
Qed.

Lemma lstrip_cons c s : lstrip (c :: s) = if isspace c then lstrip s else c :: s.
Proof. reflexivity. Qed.

(** Leading whitespace holds no sentence boundary. *)
Lemma contains_lstrip s : contains (py ". ") (lstrip s) = contains (py ". ") s.
Proof.
  induction s as [|c s IH]; [done|]. rewrite lstrip_cons.
  destruct (isspace c) eqn:E; [|done].
  by rewrite contains_cons, IH, startswith_sentence_space.
Qed.

Lemma split_first_lstrip s :
  lstrip (split_first (py ". ") s) = split_first (py ". ") (lstrip s).
Proof.
  induction s as [|c s IH]; [done|]. rewrite lstrip_cons.
  destruct (isspace c) eqn:E.
  - rewrite split_first_cons, startswith_sentence_space by done.
    by rewrite lstrip_cons, E.
  - rewrite split_first_cons. destruct (startswith _ _); [done|].
    by rewrite lstrip_cons, E.
Qed.

Lemma contains_spaces b : Forall (λ c, isspace c = true) b → contains (py ". ") b = false.
Proof.
  induction 1 as [|c b Hc _ IH]; [done|].
  by rewrite contains_cons, IH, startswith_sentence_space.
Qed.

(** A boundary that shows only once trailing whitespace is put back
    starts inside the text. *)
Lemma split_first_trailing a b :
  Forall (λ c, isspace c = true) b →
  contains (py ". ") (a ++ b) = true → contains (py ". ") a = false →
  (length (split_first (py ". ") (a ++ b)) < length a)%nat.
Proof.
  intros Hb. induction a as [|c a IH].
  - simpl app. by rewrite contains_spaces.
  - rewrite <- app_comm_cons, !contains_cons, split_first_cons.
    intros Hab [_ Ha]%orb_false_iff.
    destruct (startswith (py ". ") (c :: a ++ b)); simpl; [lia|].
    simpl in Hab. apply IH in Hab; [lia | done].
Qed.

Lemma lstrip_spaces_app b s :
  Forall (λ c, isspace c = true) b → lstrip (b ++ s) = lstrip s.
Proof. induction 1 as [|c b Hc _ IH]; [done|]. simpl. by rewrite Hc. Qed.

Lemma lstrip_nonspace c s : isspace c = false → lstrip (c :: s) = c :: s.
Proof. intros H. simpl. by rewrite H. Qed.

Lemma lstrip_app_nonspace a c b :
  isspace c = false → lstrip (a ++ c :: b) = lstrip a ++ c :: b.
Proof.
  intros Hc. induction a as [|x a IH]; simpl; [by rewrite Hc|].
  by destruct (isspace x).
Qed.

Lemma lstrip_decompose s :
  ∃ b, s = b ++ lstrip s ∧ Forall (λ c, isspace c = true) b.
Proof.
  induction s as [|c s (b & Hs & Hb)]; [by exists []|]. simpl.
  destruct (isspace c) eqn:E.
  - exists (c :: b). split; [by rewrite <- app_comm_cons, <- Hs | by constructor].
  - by exists [].
Qed.

Lemma rstrip_decompose s :
  ∃ b, s = rstrip s ++ b ∧ Forall (λ c, isspace c = true) b.
Proof.
  unfold rstrip. destruct (lstrip_decompose (reverse s)) as (b & Hs & Hb).
  exists (reverse b). split; [|by apply Forall_reverse].
  rewrite <- reverse_app, <- Hs. by rewrite reverse_involutive.
Qed.

(** A text that ends in a non-space character has nothing to strip on
    the right. *)
Lemma rstrip_nonspace a c : isspace c = false → rstrip (a ++ [c]) = a ++ [c].
Proof.
  intros Hc. unfold rstrip. rewrite reverse_app, reverse_singleton.
  change ([c] ++ reverse a) with (c :: reverse a).
  by rewrite lstrip_cons, Hc, reverse_cons, reverse_involutive.
Qed.
End strings.

(** ** The length adjuster *)

Lemma strip_truncated text :
  strip (split_first (py ". ") text ++ py ".")
  = split_first (py ". ") (lstrip text) ++ py ".".
Proof.
  unfold strip. change (py ".") with [46%N].
  rewrite lstrip_app_nonspace by reflexivity.
  rewrite rstrip_nonspace by reflexivity.
  by rewrite split_first_lstrip.
Qed.

(** The first sentence of the text is no longer than the first sentence of
    the trimmed text, when the text has a sentence boundary or does not end
    in whitespace. *)
Lemma first_piece_bound text :
  contains (py ". ") text = true ∨ ends_with_space text = false →
  (length (split_first (py ". ") (lstrip text))
   ≤ length (split_first (py ". ") (strip text)))%nat.
Proof.
  unfold strip. intros [Hsep | Hend].
  - rewrite <- contains_lstrip in Hsep.
    remember (lstrip text) as u eqn:Hu. clear Hu.
    destruct (rstrip_decompose u) as (b & Hdec & Hb).
    remember (rstrip u) as a eqn:Ha. clear Ha. subst u.
    destruct (contains (py ". ") a) eqn:E.
    + by rewrite split_first_app_l.
    + rewrite (split_first_absent _ a E).
      pose proof (split_first_trailing a b Hb Hsep E). lia.
  - destruct text as [|c text _] using rev_ind; [done|].
    unfold ends_with_space in Hend. rewrite last_snoc in Hend.
    by rewrite lstrip_app_nonspace, rstrip_nonspace.
Qed.

Section length_adjuster.
Context `{RS : RandomSource}.
Implicit Types (self : ExcuseGenerator) (request : ExcuseRequest).

Lemma vary_short self text request :
  length_ request = py "Short" →
  _vary self text request
  = Ok (strip (if 140 <? len text
               then split_first (py ". ") text ++ py "." else text), self).
Proof. intros H. unfold _vary. by rewrite H, str_eqb_refl. Qed.

Lemma vary_medium self text request :
  length_ request = py "Medium" →
  _vary self text request = Ok (strip text, self).
Proof. intros H. unfold _vary. by rewrite H. Qed.

(** C5, amended: a rendered text longer than 140 characters that has a
    sentence boundary or does not end in whitespace gives a Short output
    no longer than the first-sentence truncation of the Medium output; a
    text of at most 140 characters is not truncated, its Short output is
    the Medium output, which is within that bound exactly when it has no
    sentence boundary. *)
Theorem vary_short_vs_medium self text short_request medium_request :
  length_ short_request = py "Short" →
  length_ medium_request = py "Medium" →
  ∃ short medium,
    _vary self text short_request = Ok (short, self)
    ∧ _vary self text medium_request = Ok (medium, self)
    ∧ (140 < len text →
       contains (py ". ") text = true ∨ ends_with_space text = false →
       len short ≤ len (first_sentence medium))
    ∧ (len text ≤ 140 →
       short = medium
       ∧ (contains (py ". ") medium = false →
          len short ≤ len (first_sentence medium))
       ∧ (contains (py ". ") medium = true →
          len (first_sentence medium) < len short)).
Proof.
  intros Hshort Hmedium.
  rewrite (vary_short _ _ _ Hshort), (vary_medium _ _ _ Hmedium).
  eexists _, _. split; [reflexivity|]. split; [reflexivity|]. split.
  - intros Hlong Hcond. apply Z.ltb_lt in Hlong. rewrite Hlong.
    rewrite strip_truncated. unfold first_sentence, len.
    rewrite !length_app. pose proof (first_piece_bound text Hcond). lia.
  - intros Hle. assert ((140 <? len text) = false) as -> by (apply Z.ltb_ge; lia).
    split; [done|]. split.
    + intros Habsent. unfold first_sentence, len.
      rewrite (split_first_absent _ _ Habsent), length_app. lia.
    + intros Hpresent. unfold first_sentence, len. rewrite length_app.
      pose proof (split_first_present _ _ Hpresent) as Hroom.
      change (length (py ". ")) with 2%nat in Hroom.
      change (length (py ".")) with 1%nat. lia.
Qed.
End length_adjuster.

Lemma vary_short_vs_medium_witness :
  let text :=
    py "I hit a blocker on the quarterly revenue forecast for the board. I won't make today's deadline. I'll send a simple plan and new ETA by tomorrow." in
  ∃ medium,
    _vary (lcg_generator 0) text
      (sample_request "Work Deadline" "Professional" 2 "Short" None (Some 42))
    = Ok (py "I hit a blocker on the quarterly revenue forecast for the board.",
          lcg_generator 0)
    ∧ _vary (lcg_generator 0) text
        (sample_request "Work Deadline" "Professional" 2 "Medium" None (Some 42))
      = Ok (medium, lcg_generator 0)
    ∧ 64 ≤ len (first_sentence medium).
Proof.
  intros text.
  destruct (vary_short_vs_medium (RS := lcg) (lcg_generator 0) text
              (sample_request "Work Deadline" "Professional" 2 "Short" None (Some 42))
              (sample_request "Work Deadline" "Professional" 2 "Medium" None (Some 42)))
    as (short & medium & Hs & Hm & Hlong & _); [reflexivity | reflexivity |].
  exists medium.
  assert (short = py "I hit a blocker on the quarterly revenue forecast for the board.") as Hshort.
  { vm_compute in Hs. by injection Hs as <-. }
  split; [by rewrite Hs, Hshort|]. split; [exact Hm|].
  transitivity (len short); [by rewrite Hshort|].
  apply Hlong; [by vm_compute | left; by vm_compute].
Defined.

(** C5 as stated fails on a text of at most 140 characters that has a
    sentence boundary: the General/Brief template, rendered at specificity
    2 with one seed and one time, is returned whole for Short (77
    characters), while the first sentence of the Medium output has 23. *)
Lemma short_exceeds_first_sentence :
  ∃ short medium g g',
    generate (lcg_generator 0)
      (sample_request "General" "Brief" 2 "Short" None (Some 42)) monday_night
    = Ok (short, g)
    ∧ generate (lcg_generator 0)
        (sample_request "General" "Brief" 2 "Medium" None (Some 42)) monday_night
      = Ok (medium, g')
    ∧ len short = 77 ∧ len (first_sentence medium) = 23
    ∧ ¬ len short ≤ len (first_sentence medium).
Proof.
  eexists _, _, _, _. split; [vm_compute; reflexivity|].
  split; [vm_compute; reflexivity|].
  split; [vm_compute; reflexivity|]. split; [vm_compute; reflexivity|].
  vm_compute. intros H. by apply H.
Qed.

(** ** The built-in catalog never raises

    Every placeholder of a built-in template is one of the five keys the
    context always has, so on the built-in catalog rendering succeeds in
    [generate] and in [rephrase] alike. *)

Lemma od_get_elem {V} (k : str) (d : odict V) (v : V) : od_get k d = Ok v → (k, v) ∈ d.
Proof.
  induction d as [|[k' v'] d IH]; simpl; [discriminate|].
  destruct (str_eqb k k') eqn:E.
  - apply str_eqb_eq in E as ->. intros [= ->]. left.
  - intros H. right. by apply IH.
Qed.

Lemma lookup_renders (c : catalog) context category tone l template :
  catalog_renders c context = true →
  lookup c category tone = Ok l → template ∈ l →
  renders_with context template = true.
Proof.
  unfold catalog_renders, lookup. intros Hall Hl Hin.
  apply bind_Ok in Hl as (tones & Htones & Hl).
  apply bind_Ok in Hl as (chosen & _ & Hl).
  apply od_get_elem, list_elem_of_In in Htones, Hl.
  rewrite forallb_forall in Hall. apply Hall in Htones. simpl in Htones.
  rewrite forallb_forall in Htones. apply Htones in Hl. simpl in Hl.
  rewrite forallb_forall in Hl. by apply Hl, list_elem_of_In.
Qed.

Lemma get_field_more_keys (small large : gmap str str) name :
  (∀ k, is_Some (small !! k) → is_Some (large !! k)) →
  (∃ v, get_field name small = Ok v) → ∃ v, get_field name large = Ok v.
Proof.
  intros Hsub. unfold get_field.
  destruct (field_first name) as [first accessors].
  destruct (forallb is_digit first); [done|].
  intros [v Hv]. destruct (small !! first) as [w|] eqn:E; [|done].
  destruct (Hsub first) as [w' ->]; [by rewrite E|].
  destruct accessors; [by eauto | done].
Qed.

Lemma format_scan_literal context c rest :
  format_scan context Literal (c :: rest) =
    if (c =? 123)%N then
      match rest with
      | [] => Raise ValueError
      | c2 :: rest2 =>
          if (c2 =? 123)%N then
            out ← format_scan context Literal rest2; Ok (123%N :: out)
          else format_scan context (Field [] false) rest
      end
    else if (c =? 125)%N then
      match rest with
      | [] => Raise ValueError
      | c2 :: rest2 =>
          if (c2 =? 125)%N then
            out ← format_scan context Literal rest2; Ok (125%N :: out)
          else Raise ValueError
      end
    else out ← format_scan context Literal rest; Ok (c :: out).
Proof. reflexivity. Qed.

Lemma format_scan_bracket context name_rev c rest :
  format_scan context (Field name_rev true) (c :: rest) =
    format_scan context (Field (c :: name_rev) (negb (c =? 93)%N)) rest.
Proof. reflexivity. Qed.

Lemma format_scan_field context name_rev c rest :
  format_scan context (Field name_rev false) (c :: rest) =
    if (c =? 123)%N then Raise ValueError
    else if (c =? 91)%N then format_scan context (Field (c :: name_rev) true) rest
    else if (c =? 125)%N then
      value ← get_field (reverse name_rev) context;
      out ← format_scan context Literal rest;
      Ok (value ++ out)
    else if (c =? 58)%N || (c =? 33)%N then Raise UnsupportedFormat
    else format_scan context (Field (c :: name_rev) false) rest.
Proof. reflexivity. Qed.

(** A template that renders with some keys renders with more keys. *)
Lemma format_scan_more_keys (small large : gmap str str) :
  (∀ k, is_Some (small !! k) → is_Some (large !! k)) →
  ∀ n s st, (length s ≤ n)%nat →
    (∃ out, format_scan small st s = Ok out) →
    ∃ out, format_scan large st s = Ok out.
Proof.
  intros Hsub n. induction n as [|n IH]; intros s st Hlen [out Hout].
  { destruct s; [|simpl in Hlen; lia]. destruct st; simpl in *; eauto; done. }
  destruct s as [|c s]; [destruct st; simpl in *; eauto; done|].
  simpl in Hlen. destruct st as [|name_rev []].
  - rewrite format_scan_literal in *.
    destruct (c =? 123)%N; [|destruct (c =? 125)%N].
    + destruct s as [|c2 s2]; [done|]. simpl in Hlen.
      destruct (c2 =? 123)%N; [|apply IH; [simpl; lia | eauto]].
      apply bind_Ok in Hout as (o & Ho & _).
      destruct (IH s2 Literal) as [o' ->]; [lia | eauto |].
      rewrite Ok_bind. eauto.
    + destruct s as [|c2 s2]; [done|]. simpl in Hlen.
      destruct (c2 =? 125)%N; [|done].
      apply bind_Ok in Hout as (o & Ho & _).
      destruct (IH s2 Literal) as [o' ->]; [lia | eauto |].
      rewrite Ok_bind. eauto.
    + apply bind_Ok in Hout as (o & Ho & _).
      destruct (IH s Literal) as [o' ->]; [lia | eauto |].
      rewrite Ok_bind. eauto.
  - rewrite format_scan_bracket in *. apply IH; [lia | eauto].
  - rewrite format_scan_field in *.
    destruct (c =? 123)%N; [done|].
    destruct (c =? 91)%N; [apply IH; [lia | eauto]|].
    destruct (c =? 125)%N.
    + apply bind_Ok in Hout as (v & Hv & Hout).
      apply bind_Ok in Hout as (o & Ho & _).
      destruct (get_field_more_keys small large (reverse name_rev) Hsub) as [v' ->];
        [eauto|].
      destruct (IH s Literal) as [o' ->]; [lia | eauto |].
      rewrite !Ok_bind. eauto.
    + destruct ((c =? 58)%N || (c =? 33)%N); [done|]. apply IH; [lia | eauto].
Qed.

Lemma with_custom_keeps_keys custom context k :
  is_Some (context !! k) → is_Some (with_custom custom context !! k).
Proof.
  intros Hk. unfold with_custom.
  destruct custom as [[|c text]|]; [done| |done].
  destruct (_ && _); rewrite lookup_insert_is_Some';  by right.
Qed.

Lemma base_context_keys tf nt tf' nt' k :
  is_Some (base_context tf nt !! k) → is_Some (base_context tf' nt' !! k).
Proof.
  rewrite <- !elem_of_dom. by rewrite !base_context_dom.
Qed.

Section builtin.
Context `{RS : RandomSource}.

Lemma vary_total (self : ExcuseGenerator) text request :
  ∃ out, _vary self text request = Ok out.
Proof.
  unfold _vary. destruct (str_eqb _ (py "Short")); [by eauto|].
  destruct (str_eqb _ (py "Long")); [|by eauto].
  destruct (choice_nonempty (random self) addons) as (x & r & -> & _); [done|].
  by eauto.
Qed.

(** On the built-in catalog, at a valid time, [generate] and [rephrase]
    both return a text, whatever the request and the random state. *)
Lemma builtin_never_raises (entropy : rng) request base_text now :
  datetime_ok now = true →
  (∃ out, generate (new_generator entropy) request now = Ok out)
  ∧ (∃ out, rephrase (new_generator entropy) request base_text now = Ok out).
Proof.
  intros Hok.
  assert (∀ r : rng, ∃ template g,
            _choose_template (new_generator r) (category request) (tone request)
            = Ok (template, g)
            ∧ renders_with (base_context [] []) template = true) as Hchoose.
  { intros r. rewrite choose_template_lookup. simpl templates.
    destruct (lookup_nonempty _load_templates (category request) (tone request))
      as (l & Hl & Hne); [by vm_compute|].
    rewrite Hl, Ok_bind. simpl random.
    destruct (choice_nonempty r l Hne) as (x & r' & -> & Hin & _).
    rewrite Ok_bind. eexists _, _. split; [reflexivity|].
    eapply (lookup_renders _load_templates); [by vm_compute | exact Hl | exact Hin]. }
  destruct (time_fields_total now (specificity request) Hok) as (tf & nt & Ht).
  assert (∀ template, renders_with (base_context [] []) template = true →
            ∃ text, format template
                      (with_custom (custom_context request) (base_context tf nt))
                    = Ok text) as Hrender.
  { intros template Hr. unfold renders_with in Hr. unfold format in *.
    eapply (format_scan_more_keys (base_context [] [])); [|reflexivity|].
    - intros k Hk. by eapply with_custom_keeps_keys, base_context_keys.
    - destruct (format_scan _ _ _); [by eauto | done]. }
  split.
  - unfold generate.
    destruct (Hchoose match seed request with
                      | Some s => rng_seed s | None => entropy end)
      as (template & g & Hc & Hr).
    replace (match seed request with
             | Some s => set_random (new_generator entropy) (rng_seed s)
             | None => new_generator entropy end)
      with (new_generator match seed request with
                          | Some s => rng_seed s | None => entropy end)
      by by destruct (seed request).
    rewrite Hc, Ok_bind, build_context_parts, Ht, !Ok_bind.
    destruct (Hrender template Hr) as [text ->]. rewrite Ok_bind.
    apply vary_total.
  - unfold rephrase.
    destruct (Hchoose match seed request with
                      | Some s => rng_seed (s + 1) | None => entropy end)
      as (template & g & Hc & Hr).
    replace (match seed request with
             | Some s => set_random (new_generator entropy) (rng_seed (s + 1))
             | None => new_generator entropy end)
      with (new_generator match seed request with
                          | Some s => rng_seed (s + 1) | None => entropy end)
      by by destruct (seed request).
    rewrite Hc, Ok_bind, build_context_parts, Ht, !Ok_bind.
    destruct (Hrender template Hr) as [text ->]. rewrite Ok_bind.
    apply vary_total.
Qed.
End builtin.

(** With two templates to choose from, rephrasing with seed 42 need not
    give what generating with seed 42 gives: under [lcg] the two calls pick
    different General/Casual templates. *)
Example rephrase_differs_from_generate :
  let request := sample_request "General" "Casual" 2 "Medium" None (Some 42) in
  (∃ g, generate (lcg_generator 0) request monday_night
        = Ok (py "Sorry—something came up, so I can't complete the task today. Can we do tomorrow?", g))
  ∧ (∃ g, rephrase (lcg_generator 0) request [] monday_night
          = Ok (py "Hey, quick heads-up: I'm tied up last minute. Can we move complete the task to tomorrow?", g)).
Proof. split; eexists; vm_compute; reflexivity. Qed.

(** * Further properties of the code *)

(** ** Trimming *)

Lemma lstrip_head s :
  lstrip s = [] ∨ ∃ c t, lstrip s = c :: t ∧ isspace c = false.
Proof.
  induction s as [|c s IH]; [by left|]. rewrite lstrip_cons.
  destruct (isspace c) eqn:E; [exact IH | right; eauto].
Qed.

Lemma lstrip_nil_spaces s : lstrip s = [] → Forall (λ c, isspace c = true) s.
Proof.
  intros H. destruct (lstrip_decompose s) as (b & Hs & Hb).
  rewrite H, app_nil_r in Hs. by subst.
Qed.

Lemma lstrip_app_nonempty a b : lstrip a ≠ [] → lstrip (a ++ b) = lstrip a ++ b.
Proof.
  induction a as [|c a IH]; [done|]. rewrite <- app_comm_cons, !lstrip_cons.
  destruct (isspace c); [exact IH | done].
Qed.

Lemma rstrip_nil : rstrip [] = [].
Proof. reflexivity. Qed.

Lemma rstrip_last s :
  rstrip s = [] ∨ ∃ a c, rstrip s = a ++ [c] ∧ isspace c = false.
Proof.
  unfold rstrip. destruct (lstrip_head (reverse s)) as [->|(c & t & -> & Hc)].
  - by left.
  - right. exists (reverse t), c. by rewrite reverse_cons.
Qed.

(** Stripping on the right keeps a first character that is not a space. *)
Lemma rstrip_keeps_head c t :
  isspace c = false → ∃ t', rstrip (c :: t) = c :: t'.
Proof.
  intros Hc. destruct (rstrip_decompose (c :: t)) as (b & Hdec & Hb).
  destruct (rstrip (c :: t)) as [|c' t'] eqn:E.
  - simpl in Hdec. subst b. apply Forall_cons in Hb as [Hb _]. congruence.
  - injection Hdec as <- _. by exists t'.
Qed.

Lemma strip_trimmed s : trimmed (strip s).
Proof.
  unfold strip, trimmed. split.
  - intros c. destruct (lstrip_head s) as [->|(x & t & -> & Hx)]; [by rewrite rstrip_nil|].
    destruct (rstrip_keeps_head x t Hx) as [t' ->]. simpl. by intros [= <-].
  - intros c. destruct (rstrip_last (lstrip s)) as [->|(a & x & -> & Hx)]; [done|].
    rewrite last_snoc. by intros [= <-].
Qed.

Lemma trimmed_strip s : trimmed s → strip s = s.
Proof.
  intros [Hhead Hlast]. unfold strip.
  assert (lstrip s = s) as ->.
  { destruct s as [|c s]; [done|]. rewrite lstrip_cons.
    by rewrite (Hhead c eq_refl). }
  destruct s as [|c s _] using rev_ind; [done|].
  apply rstrip_nonspace, Hlast, last_snoc.
Qed.

Lemma strip_spaces s : Forall (λ c, isspace c = true) s → strip s = [].
Proof.
  intros Hs. unfold strip.
  rewrite <- (app_nil_r s), lstrip_spaces_app by done. reflexivity.
Qed.

(** ** The length adjuster, case by case *)

Lemma contains_sentence_snoc x :
  contains (py ". ") (x ++ py ".") = contains (py ". ") x.
Proof.
  change (py ". ") with [46; 32]%N. change (py ".") with [46%N].
  induction x as [|c x IH]; [reflexivity|].
  rewrite <- app_comm_cons, !contains_cons, IH. f_equal.
  destruct x as [|d x]; simpl app; cbn [startswith]; [|reflexivity].
  by destruct (46 =? c)%N.
Qed.

Lemma split_first_prefix sep s : ∃ r, s = split_first sep s ++ r.
Proof.
  induction s as [|c s [r IH]]; [by exists []|]. rewrite split_first_cons.
  destruct (startswith sep (c :: s)); [by exists (c :: s)|].
  exists r. by rewrite <- app_comm_cons, <- IH.
Qed.

Lemma startswith_app_true sep a b :
  startswith sep a = true → startswith sep (a ++ b) = true.
Proof.
  intros H. by rewrite startswith_app by by apply startswith_length.
Qed.

(** The first piece of a split holds no separator. *)
Lemma split_first_no_separator sep s :
  sep ≠ [] → contains sep (split_first sep s) = false.
Proof.
  intros Hsep. induction s as [|c s IH].
  - simpl. by destruct sep.
  - rewrite split_first_cons. destruct (startswith sep (c :: s)) eqn:E.
    + simpl. by destruct sep.
    + rewrite contains_cons, IH, orb_false_r.
      destruct (startswith sep (c :: split_first sep s)) eqn:E'; [|done].
      destruct (split_first_prefix sep s) as [r Hr].
      apply (startswith_app_true _ _ r) in E'.
      rewrite <- app_comm_cons, <- Hr in E'. congruence.
Qed.

Lemma addons_end_in_period addon :
  addon ∈ addons → ∃ a, addon = a ++ [46%N].
Proof.
  unfold addons. rewrite !elem_of_cons, elem_of_nil.
  intros [->|[->|[->|[]]]];
    match goal with |- ∃ a, ?x = _ => exists (removelast x) end;
    vm_compute; reflexivity.
Qed.

Section length_cases.
Context `{RS : RandomSource}.
Implicit Types (self : ExcuseGenerator) (request : ExcuseRequest).

Lemma vary_strips self text request out g :
  _vary self text request = Ok (out, g) → ∃ t, out = strip t.
Proof.
  unfold _vary. intros H. apply bind_Ok in H as ([t g'] & _ & H).
  injection H as <- _. by exists t.
Qed.

Lemma vary_keeps_catalog self text request out g :
  _vary self text request = Ok (out, g) → templates g = templates self.
Proof.
  unfold _vary. intros H. apply bind_Ok in H as ([t g'] & H1 & H).
  injection H as _ <-.
  destruct (str_eqb _ (py "Short")); [by injection H1 as _ <-|].
  destruct (str_eqb _ (py "Long")); [|by injection H1 as _ <-].
  apply bind_Ok in H1 as ([addon r] & _ & H1). by injection H1 as _ <-.
Qed.


(** X4: for length Short and a text of more than 140 characters, [_vary]
    returns the left-trimmed text up to its first sentence boundary, plus a
    period, and the result holds no sentence boundary.  A text with no
    boundary is returned left-trimmed with a period added: the result is
    not cut to 140 characters. *)
Theorem vary_short_truncates self text request :
  length_ request = py "Short" → 140 < len text →
  ∃ out,
    _vary self text request = Ok (out, self)
    ∧ out = split_first (py ". ") (lstrip text) ++ py "."
    ∧ contains (py ". ") out = false
    ∧ (contains (py ". ") text = false → out = lstrip text ++ py ".").
Proof.
  intros Hlen Hlong. rewrite (vary_short _ _ _ Hlen).
  apply Z.ltb_lt in Hlong. rewrite Hlong, strip_truncated.
  eexists. split; [reflexivity|]. split; [reflexivity|]. split.
  - rewrite contains_sentence_snoc. by apply split_first_no_separator.
  - intros Habsent. by rewrite split_first_absent by by rewrite contains_lstrip.
Qed.

(** X5: a length other than Short and Long is treated as Medium: [_vary]
    only trims, leaves the generator as it is, and applying it to its own
    output changes nothing. *)
Theorem vary_other_lengths_trim self text request :
  length_ request ≠ py "Short" → length_ request ≠ py "Long" →
  _vary self text request = Ok (strip text, self)
  ∧ _vary self (strip text) request = Ok (strip text, self).
Proof.
  intros Hshort Hlong.
  assert (∀ t, _vary self t request = Ok (strip t, self)) as Hvary.
  { intros t. unfold _vary, str_eqb.
    by rewrite !bool_decide_eq_false_2 by done. }
  rewrite !Hvary. split; [done|].
  by rewrite (trimmed_strip _ (strip_trimmed text)).
Qed.

Lemma choose_template_keeps_catalog self category tone template g :
  _choose_template self category tone = Ok (template, g) →
  templates g = templates self.
Proof.
  rewrite choose_template_lookup. intros H.
  apply bind_Ok in H as (l & _ & H). apply bind_Ok in H as ([t r] & _ & H).
  by injection H as _ <-.
Qed.

(** X2: every text [generate] or [rephrase] returns is trimmed: its first
    and last characters are not whitespace. *)
Theorem generated_text_trimmed self request base_text now out g :
  generate self request now = Ok (out, g)
  ∨ rephrase self request base_text now = Ok (out, g) →
  trimmed out.
Proof.
  assert (∀ self' text, _vary self' text request = Ok (out, g) → trimmed out)
    as Hvary.
  { intros self' text [t ->]%vary_strips. apply strip_trimmed. }
  unfold generate, rephrase. intros [H|H].
  - apply bind_Ok in H as ([template g1] & _ & H).
    apply bind_Ok in H as (context & _ & H).
    apply bind_Ok in H as (text & _ & H). by eapply Hvary.
  - apply bind_Ok in H as ([template g1] & _ & H).
    apply bind_Ok in H as (context & _ & H).
    apply bind_Ok in H as (text & _ & H). by eapply Hvary.
Qed.

(** X8: [generate] and [rephrase] never change the catalog of the
    generator: the generator they leave differs from the one they got in its
    random state only. *)
Theorem generation_keeps_catalog self request base_text now out g :
  generate self request now = Ok (out, g)
  ∨ rephrase self request base_text now = Ok (out, g) →
  templates g = templates self.
Proof.
  assert (∀ r, templates match seed request with
                         | Some s => set_random self (r s)
                         | None => self
                         end = templates self) as Hseed.
  { intros r. by destruct (seed request). }
  unfold generate, rephrase. intros [H|H].
  - apply bind_Ok in H as ([template g1] & Hc & H).
    apply bind_Ok in H as (context & _ & H).
    apply bind_Ok in H as (text & _ & H).
    apply vary_keeps_catalog in H. apply choose_template_keeps_catalog in Hc.
    by rewrite H, Hc, (Hseed rng_seed).
  - apply bind_Ok in H as ([template g1] & Hc & H).
    apply bind_Ok in H as (context & _ & H).
    apply bind_Ok in H as (text & _ & H).
    apply vary_keeps_catalog in H. apply choose_template_keeps_catalog in Hc.
    by rewrite H, Hc, (Hseed (λ s, rng_seed (s + 1))).
Qed.
End length_cases.


Lemma vary_short_truncates_witness :
  let text :=
    py "This text has no sentence boundary at all and it simply keeps going on and on, well past the one hundred and forty characters that Short allows" in
  len text = 143
  ∧ ∃ out,
      _vary (lcg_generator 0) text
        (sample_request "General" "Brief" 2 "Short" None None)
      = Ok (out, lcg_generator 0)
      ∧ len out = 144.
Proof.
  intros text. split; [reflexivity|].
  destruct (vary_short_truncates (RS := lcg) (lcg_generator 0) text
              (sample_request "General" "Brief" 2 "Short" None None))
    as (out & Hv & _ & _ & Habsent); [reflexivity | reflexivity |].
  exists out. split; [exact Hv|].
  rewrite Habsent; [reflexivity | vm_compute; reflexivity].
Defined.

Lemma vary_other_lengths_trim_witness :
  _vary (lcg_generator 0) (py "  Running late. ")
    (sample_request "General" "Brief" 2 "Tiny" None None)
  = Ok (py "Running late.", lcg_generator 0).
Proof.
  destruct (vary_other_lengths_trim (RS := lcg) (lcg_generator 0)
              (py "  Running late. ")
              (sample_request "General" "Brief" 2 "Tiny" None None))
    as [Hv _]; [vm_compute; discriminate | vm_compute; discriminate |].
  rewrite Hv. reflexivity.
Defined.

Lemma generated_text_trimmed_witness :
  ∃ out g,
    generate (lcg_generator 0)
      (sample_request "General" "Casual" 8 "Long" None (Some 42)) monday_night
    = Ok (out, g)
    ∧ trimmed out.
Proof.
  destruct (generate (lcg_generator 0)
              (sample_request "General" "Casual" 8 "Long" None (Some 42))
              monday_night) as [[out g]|e] eqn:E; [|vm_compute in E; discriminate E].
  exists out, g. split; [reflexivity|].
  apply (generated_text_trimmed (RS := lcg) (lcg_generator 0)
           (sample_request "General" "Casual" 8 "Long" None (Some 42))
           [] monday_night out g).
  left. exact E.
Defined.

Lemma generation_keeps_catalog_witness :
  ∃ out g,
    rephrase (lcg_generator 0)
      (sample_request "General" "Casual" 8 "Long" None (Some 42))
      (py "an earlier excuse") monday_night
    = Ok (out, g)
    ∧ templates g = _load_templates.
Proof.
  destruct (rephrase (lcg_generator 0)
              (sample_request "General" "Casual" 8 "Long" None (Some 42))
              (py "an earlier excuse") monday_night)
    as [[out g]|e] eqn:E; [|vm_compute in E; discriminate E].
  exists out, g. split; [reflexivity|].
  apply (generation_keeps_catalog (RS := lcg) (lcg_generator 0)
           (sample_request "General" "Casual" 8 "Long" None (Some 42))
           (py "an earlier excuse") monday_night out g).
  right. exact E.
Defined.

(** ** Selection: single templates and broken catalogs *)

Section selection_edges.
Context `{RS : RandomSource}.
Implicit Types (self : ExcuseGenerator) (category tone : str).

(** X6: when the resolved category and tone hold exactly one template,
    selection returns it whatever the state of the random source, so the
    choice needs no seed to be reproducible. *)
Theorem choose_template_single self category tone template :
  lookup (templates self) category tone = Ok [template] →
  ∃ g, _choose_template self category tone = Ok (template, g)
       ∧ templates g = templates self.
Proof.
  intros Hl. rewrite choose_template_lookup, Hl, Ok_bind.
  destruct (choice_nonempty (random self) [template]) as (x & r & -> & Hin & _);
    [done|].
  apply list_elem_of_singleton in Hin as ->. rewrite Ok_bind. by eexists.
Qed.

(** X7: what selection raises on a catalog that breaks the invariant: with
    neither the category nor General, [KeyError] on General; with a resolved
    category that defines no tone, and a tone it therefore cannot have,
    [StopIteration]; with an empty template list, [IndexError]. *)
Theorem choose_template_errors self category tone :
  (od_mem category (templates self) = false →
   od_mem (py "General") (templates self) = false →
   _choose_template self category tone = Raise (KeyError (py "General")))
  ∧ (od_get (resolved_category (templates self) category) (templates self) = Ok [] →
     _choose_template self category tone = Raise StopIteration)
  ∧ (lookup (templates self) category tone = Ok [] →
     _choose_template self category tone = Raise IndexError).
Proof.
  split; [|split].
  - intros Hc Hg. unfold _choose_template. rewrite Hc.
    by rewrite (od_get_not_mem _ _ Hg).
  - intros Ht. unfold _choose_template. fold (resolved_category (templates self) category).
    by rewrite Ht.
  - intros Hl. by rewrite choose_template_lookup, Hl.
Qed.
End selection_edges.

Lemma choose_template_single_witness :
  ∃ g, _choose_template (lcg_generator 99) (py "Work Deadline") (py "Professional")
       = Ok (py "I hit a blocker on {deliverable}. I won't make today's deadline. I'll send a simple plan and new ETA by {new_time}.", g)
       ∧ templates g = _load_templates.
Proof.
  apply (choose_template_single (RS := lcg) (lcg_generator 99)
           (py "Work Deadline") (py "Professional")).
  vm_compute. reflexivity.
Defined.

Lemma choose_template_errors_witness :
  _choose_template (@Build_ExcuseGenerator lcg 0%nat []) (py "General") (py "Brief")
  = Raise (KeyError (py "General")).
Proof.
  destruct (choose_template_errors (RS := lcg) (@Build_ExcuseGenerator lcg 0%nat [])
              (py "General") (py "Brief")) as [Hkey _].
  apply Hkey; reflexivity.
Defined.

(** ** Rendering with more keys *)

Lemma get_field_same_values (small large : gmap str str) name v :
  (∀ k w, small !! k = Some w → large !! k = Some w) →
  get_field name small = Ok v → get_field name large = Ok v.
Proof.
  intros Hsub. unfold get_field.
  destruct (field_first name) as [first accessors].
  destruct (forallb is_digit first); [done|].
  destruct (small !! first) as [w|] eqn:E; [|done].
  by rewrite (Hsub _ _ E).
Qed.

(** A template that renders with a context renders to the same text with
    any context that extends it. *)
Lemma format_scan_same_values (small large : gmap str str) :
  (∀ k w, small !! k = Some w → large !! k = Some w) →
  ∀ n s st out, (length s ≤ n)%nat →
    format_scan small st s = Ok out → format_scan large st s = Ok out.
Proof.
  intros Hsub n. induction n as [|n IH]; intros s st out Hlen Hout.
  { destruct s; [|simpl in Hlen; lia]. by destruct st. }
  destruct s as [|c s]; [by destruct st|].
  simpl in Hlen. destruct st as [|name_rev []].
  - rewrite format_scan_literal in *.
    destruct (c =? 123)%N; [|destruct (c =? 125)%N].
    + destruct s as [|c2 s2]; [done|]. simpl in Hlen.
      destruct (c2 =? 123)%N; [|apply IH; [simpl; lia | done]].
      apply bind_Ok in Hout as (o & Ho & Hout).
      by rewrite (IH s2 Literal o) by (lia || done).
    + destruct s as [|c2 s2]; [done|]. simpl in Hlen.
      destruct (c2 =? 125)%N; [|done].
      apply bind_Ok in Hout as (o & Ho & Hout).
      by rewrite (IH s2 Literal o) by (lia || done).
    + apply bind_Ok in Hout as (o & Ho & Hout).
      by rewrite (IH s Literal o) by (lia || done).
  - rewrite format_scan_bracket in *. apply IH; [lia | done].
  - rewrite format_scan_field in *.
    destruct (c =? 123)%N; [done|].
    destruct (c =? 91)%N; [apply IH; [lia | done]|].
    destruct (c =? 125)%N.
    + apply bind_Ok in Hout as (v & Hv & Hout).
      apply bind_Ok in Hout as (o & Ho & Hout).
      rewrite (get_field_same_values small large _ v Hsub Hv), Ok_bind.
      by rewrite (IH s Literal o) by (lia || done).
    + destruct ((c =? 58)%N || (c =? 33)%N); [done|]. apply IH; [lia | done].
Qed.

Lemma format_extended context key value template out :
  context !! key = None →
  format template context = Ok out →
  format template (<[key := value]> context) = Ok out.
Proof.
  intros Hkey. unfold format.
  apply (format_scan_same_values context (<[key := value]> context))
    with (n := length template); [|done].
  intros k w Hk. rewrite lookup_insert_ne; [done|]. congruence.
Qed.

(** ** Generation as a whole *)

Section generation_whole.
Context `{RS : RandomSource}.
Implicit Types (self : ExcuseGenerator) (request : ExcuseRequest).

Lemma generate_steps self request now :
  generate self request now =
    ('(template, g) ← _choose_template (seeded self (seed request))
                        (category request) (tone request);
     context ← _build_context now request;
     text ← match format template context with
            | Raise (KeyError _) => Ok template
            | rendered => rendered
            end;
     _vary g text request).
Proof. reflexivity. Qed.

Lemma rephrase_steps self request base_text now :
  rephrase self request base_text now =
    ('(template, g) ← _choose_template
                        (seeded self ((λ s, s + 1) <$> seed request))
                        (category request) (tone request);
     context ← _build_context now request;
     text ← format template context;
     _vary g text request).
Proof. unfold rephrase. by destruct (seed request). Qed.

(** On the built-in catalog the chosen template renders with the five
    default keys, whatever their values. *)
Lemma builtin_choice_renders (r : rng) category tone timeframe new_time :
  ∃ template g text,
    _choose_template (new_generator r) category tone = Ok (template, g)
    ∧ format template (base_context timeframe new_time) = Ok text.
Proof.
  rewrite choose_template_lookup. simpl templates.
  destruct (lookup_nonempty _load_templates category tone) as (l & Hl & Hne);
    [by vm_compute|].
  rewrite Hl, Ok_bind. simpl random.
  destruct (choice_nonempty r l Hne) as (x & r' & -> & Hin & _).
  rewrite Ok_bind.
  pose proof (lookup_renders _load_templates (base_context [] []) _ _ _ _
                ltac:(by vm_compute) Hl Hin) as Hr.
  unfold renders_with in Hr.
  destruct (format_scan_more_keys (base_context [] [])
              (base_context timeframe new_time)
              ltac:(intros k; apply base_context_keys)
              (length x) x Literal) as [text Htext]; [done| |by eauto].
  unfold format in Hr. destruct (format_scan _ _ _); [by eauto | done].
Qed.

Lemma seeded_new_generator (entropy : rng) s :
  seeded (new_generator entropy) s
  = new_generator match s with Some s => rng_seed s | None => entropy end.
Proof. by destruct s. Qed.

(** X1: on the built-in catalog, at a valid time, [generate] and [rephrase]
    return a text for every request and every state of the random source:
    neither the selection, nor the context, nor the rendering, nor the
    length adjustment raises. *)
Theorem builtin_generation_total (entropy : rng) request base_text now :
  datetime_ok now = true →
  (∃ out g, generate (new_generator entropy) request now = Ok (out, g))
  ∧ (∃ out g, rephrase (new_generator entropy) request base_text now = Ok (out, g)).
Proof.
  intros Hok.
  destruct (builtin_never_raises entropy request base_text now Hok)
    as [[[out g] Hg] [[out' g'] Hr]].
  split; by eauto.
Qed.

(** X9: on the built-in catalog a custom context that is routed to [notes]
    (it has a comma, or no space, or 120 characters or more) has no effect on
    the text: [generate] and [rephrase] return what they return without any
    custom context. *)
Theorem notes_never_rendered (entropy : rng) request base_text now text :
  datetime_ok now = true →
  custom_context request = Some text → text ≠ [] →
  ¬ (len text < 120 ∧ contains (py ",") text = false
     ∧ contains (py " ") text = true) →
  generate (new_generator entropy) request now
  = generate (new_generator entropy) (without_custom request) now
  ∧ rephrase (new_generator entropy) request base_text now
    = rephrase (new_generator entropy) (without_custom request) base_text now.
Proof.
  intros Hok Hcustom Hne Hnot.
  destruct (time_fields_total now (specificity request) Hok) as (tf & nt & Ht).
  assert (_build_context now request
          = Ok (<[py "notes" := text]> (base_context tf nt))) as Hwith.
  { by rewrite build_context_parts, Ht, Ok_bind, Hcustom, with_custom_notes. }
  assert (_build_context now (without_custom request) = Ok (base_context tf nt))
    as Hwithout.
  { rewrite build_context_parts. simpl specificity. by rewrite Ht. }
  assert (∀ r : rng, ∃ template g t,
            _choose_template (new_generator r) (category request) (tone request)
            = Ok (template, g)
            ∧ format template (base_context tf nt) = Ok t
            ∧ format template (<[py "notes" := text]> (base_context tf nt)) = Ok t)
    as Hchoose.
  { intros r.
    destruct (builtin_choice_renders r (category request) (tone request) tf nt)
      as (template & g & t & Hc & Hf).
    exists template, g, t. split; [done|]. split; [done|].
    apply format_extended; [apply base_context_notes | done]. }
  split.
  - rewrite !generate_steps, Hwith, Hwithout. simpl seed. simpl category. simpl tone.
    rewrite seeded_new_generator.
    destruct (Hchoose match seed request with
                      | Some s => rng_seed s | None => entropy end)
      as (template & g & t & -> & Hbase & Hnotes).
    by rewrite !Ok_bind, Hbase, Hnotes.
  - rewrite !rephrase_steps, Hwith, Hwithout. simpl seed. simpl category. simpl tone.
    rewrite seeded_new_generator.
    destruct (Hchoose match (λ s, s + 1) <$> seed request with
                      | Some s => rng_seed s | None => entropy end)
      as (template & g & t & -> & Hbase & Hnotes).
    by rewrite !Ok_bind, Hbase, Hnotes.
Qed.

(** X10: [rephrase] is [generate] on the request with the next seed (the
    same request when it has no seed), except that where rendering meets a
    missing key [rephrase] raises the [KeyError]. *)
Theorem rephrase_is_generate_or_key_error self request base_text now :
  rephrase self request base_text now = generate self (next_seed request) now
  ∨ ∃ key, rephrase self request base_text now = Raise (KeyError key).
Proof.
  assert (generate self (next_seed request) now =
            ('(template, g) ← _choose_template
                                (seeded self ((λ s, s + 1) <$> seed request))
                                (category request) (tone request);
             context ← _build_context now request;
             text ← match format template context with
                    | Raise (KeyError _) => Ok template
                    | rendered => rendered
                    end;
             _vary g text request)) as ->.
  { unfold next_seed. by destruct (seed request) eqn:E; rewrite generate_steps, ?E. }
  rewrite rephrase_steps.
  destruct (_choose_template _ _ _) as [[template g]|e]; [|by left].
  rewrite !Ok_bind.
  destruct (_build_context now request) as [context|e]; [|by left].
  rewrite !Ok_bind.
  destruct (format template context) as [text|e]; [by left|].
  destruct e; try (by left). right. by eexists.
Qed.


(** X12: with specificity below 4 nothing of the clock reaches the text:
    [generate] and [rephrase] return the same result at any two times, valid
    or not. *)
Theorem low_specificity_ignores_clock self request base_text now now' :
  specificity request < 4 →
  generate self request now = generate self request now'
  ∧ rephrase self request base_text now = rephrase self request base_text now'.
Proof.
  intros Hlow.
  assert (_build_context now request = _build_context now' request) as Hctx.
  { by rewrite !build_context_parts, !time_fields_low. }
  by rewrite !generate_steps, !rephrase_steps, Hctx.
Qed.

(** X22: a seeded call leaves the random source in a state that depends on
    the request alone, so the calls that follow it without a seed are
    reproducible too: two generators with the same catalog give the same two
    texts, and are left in the same state. *)
Theorem seeded_call_fixes_later_calls self self' request request' now now' s :
  seed request = Some s →
  templates self = templates self' →
  ('(first, g) ← generate self request now;
   '(second, g') ← generate g request' now';
   Ok (first, second, g'))
  = ('(first, g) ← generate self' request now;
     '(second, g') ← generate g request' now';
     Ok (first, second, g')).
Proof.
  intros Hs Ht. rewrite !generate_steps, Hs. unfold seeded.
  by rewrite (set_random_templates self self' _ Ht).
Qed.
End generation_whole.

Lemma builtin_generation_total_witness :
  (∃ out g, generate (lcg_generator 5)
              (sample_request "Picnic" "Grumpy" 9 "Long" (Some (py "a, b")) None)
              monday_night = Ok (out, g))
  ∧ (∃ out g, rephrase (lcg_generator 5)
                (sample_request "Picnic" "Grumpy" 9 "Long" (Some (py "a, b")) None)
                [] monday_night = Ok (out, g)).
Proof.
  apply (builtin_generation_total (RS := lcg) 5%nat
           (sample_request "Picnic" "Grumpy" 9 "Long" (Some (py "a, b")) None)
           [] monday_night).
  vm_compute. reflexivity.
Defined.

Lemma notes_never_rendered_witness :
  generate (lcg_generator 5)
    (sample_request "Work Deadline" "Brief" 5 "Medium"
       (Some (py "the Q3 report, due Friday")) (Some 3)) monday_night
  = generate (lcg_generator 5)
      (sample_request "Work Deadline" "Brief" 5 "Medium" None (Some 3)) monday_night.
Proof.
  destruct (notes_never_rendered (RS := lcg) 5%nat
              (sample_request "Work Deadline" "Brief" 5 "Medium"
                 (Some (py "the Q3 report, due Friday")) (Some 3))
              [] monday_night (py "the Q3 report, due Friday")) as [Hg _].
  - vm_compute. reflexivity.
  - reflexivity.
  - vm_compute. discriminate.
  - intros (_ & Hcomma & _). vm_compute in Hcomma. discriminate Hcomma.
  - exact Hg.
Defined.


Lemma low_specificity_ignores_clock_witness :
  generate (lcg_generator 5)
    (sample_request "General" "Brief" 3 "Long" None (Some 9)) monday_night
  = generate (lcg_generator 5)
      (sample_request "General" "Brief" 3 "Long" None (Some 9))
      {| year := 1999; month := 12; day := 31; hour := 23; minute := 59;
         second := 59; microsecond := 0 |}.
Proof.
  apply (low_specificity_ignores_clock (RS := lcg) (lcg_generator 5)
           (sample_request "General" "Brief" 3 "Long" None (Some 9)) []).
  simpl. lia.
Defined.

Lemma seeded_call_fixes_later_calls_witness :
  let seeded_request := sample_request "General" "Casual" 2 "Long" None (Some 11) in
  let unseeded_request := sample_request "General" "Professional" 2 "Long" None None in
  ('(first, g) ← generate (lcg_generator 1) seeded_request monday_night;
   '(second, g') ← generate g unseeded_request monday_night;
   Ok (first, second, g'))
  = ('(first, g) ← generate (lcg_generator 77) seeded_request monday_night;
     '(second, g') ← generate g unseeded_request monday_night;
     Ok (first, second, g')).
Proof.
  intros seeded_request unseeded_request.
  apply (seeded_call_fixes_later_calls (RS := lcg) (lcg_generator 1)
           (lcg_generator 77) seeded_request unseeded_request
           monday_night monday_night 11); reflexivity.
Defined.

(** ** Persistence: the written line *)

Lemma unhex_hex_digit n : (n < 16)%N → unhex (hex_digit n) = n.
Proof.
  intros Hn. unfold unhex, hex_digit.
  destruct (n <? 10)%N eqn:E.
  - apply N.ltb_lt in E. assert ((48 + n <? 58)%N = true) as -> by (apply N.ltb_lt; lia).
    lia.
  - apply N.ltb_ge in E. assert ((87 + n <? 58)%N = false) as -> by (apply N.ltb_ge; lia).
    lia.
Qed.

Lemma json_read_string_plain c rest :
  (c =? 34)%N = false → (c =? 92)%N = false →
  json_read_string (c :: rest)
  = let '(d, r) := json_read_string rest in (c :: d, r).
Proof. intros H34 H92. simpl. by rewrite H34, H92. Qed.

(** Reading undoes the escaping of one character. *)
Lemma json_read_string_escape c rest :
  json_read_string (json_escape_char c ++ rest)
  = let '(d, r) := json_read_string rest in (c :: d, r).
Proof.
  unfold json_escape_char.
  destruct (c =? 34)%N eqn:E34; [apply N.eqb_eq in E34 as ->; reflexivity|].
  destruct (c =? 92)%N eqn:E92; [apply N.eqb_eq in E92 as ->; reflexivity|].
  destruct (c =? 10)%N eqn:E10; [apply N.eqb_eq in E10 as ->; reflexivity|].
  destruct (c =? 13)%N eqn:E13; [apply N.eqb_eq in E13 as ->; reflexivity|].
  destruct (c =? 9)%N eqn:E9; [apply N.eqb_eq in E9 as ->; reflexivity|].
  destruct (c =? 8)%N eqn:E8; [apply N.eqb_eq in E8 as ->; reflexivity|].
  destruct (c =? 12)%N eqn:E12; [apply N.eqb_eq in E12 as ->; reflexivity|].
  destruct (c <? 32)%N eqn:E32; [|by apply json_read_string_plain].
  apply N.ltb_lt in E32.
  change (py "\u00") with [92; 117; 48; 48]%N.
  change (json_read_string
            (([92; 117; 48; 48]%N ++ [hex_digit (c / 16); hex_digit (c mod 16)])
             ++ rest))
    with (let '(d, r) := json_read_string rest in
          ((16 * unhex (hex_digit (c / 16)) + unhex (hex_digit (c mod 16)))%N :: d, r)).
  rewrite !unhex_hex_digit.
  - destruct (json_read_string rest). f_equal. f_equal.
    pose proof (N.div_mod c 16). lia.
  - apply N.mod_lt. lia.
  - apply N.Div0.div_lt_upper_bound. lia.
Qed.

Lemma json_read_string_body s rest :
  json_read_string (mjoin (json_escape_char <$> s) ++ 34%N :: rest) = (s, rest).
Proof.
  induction s as [|c s IH]; [reflexivity|].
  by rewrite fmap_cons, mjoin_cons, <- app_assoc, json_read_string_escape, IH.
Qed.

(** Reading a written string back gives the text and what follows it. *)
Lemma json_string_read s rest :
  json_read_string (tail (json_string s ++ rest)) = (s, rest).
Proof.
  unfold json_string. rewrite <- !app_assoc.
  exact (json_read_string_body s rest).
Qed.

Lemma json_string_app_inj a b rest rest' :
  json_string a ++ rest = json_string b ++ rest' → a = b ∧ rest = rest'.
Proof.
  intros H. apply (f_equal (λ l, json_read_string (tail l))) in H.
  rewrite !json_string_read in H. by injection H.
Qed.

(** X15: the written record determines what was written: two records are
    equal only when their timestamps and their texts are, so no two texts
    are confused by the escaping of quotes, backslashes and control
    characters. *)
Theorem persisted_record_determines_text timestamp text timestamp' text' :
  json_dumps_record timestamp text = json_dumps_record timestamp' text' ↔
  timestamp = timestamp' ∧ text = text'.
Proof.
  split; [|by intros [-> ->]].
  unfold json_dumps_record. intros H.
  do 3 apply app_inv_head in H.
  apply json_string_app_inj in H as [-> H]. split; [done|].
  do 3 apply app_inv_head in H.
  by apply json_string_app_inj in H as [-> _].
Qed.

(** X13: one call of [persist], when [.history] is not a regular file, the
    day's file is not a directory and the text has no lone surrogate:
    [.history] is a directory afterwards, the day's file is what it was
    followed by one line (the record, which holds no newline, and a
    newline), and every other path is untouched. *)
Theorem persist_appends_line text today stamp fs :
  (∀ content, fs !! py ".history" ≠ Some (File content)) →
  fs !! history_file (py ".history") today ≠ Some Dir →
  no_surrogate text →
  ∃ fs',
    persist text today stamp fs = Ok fs'
    ∧ fs' !! py ".history" = Some Dir
    ∧ fs' !! history_file (py ".history") today
      = Some (File (file_content fs (history_file (py ".history") today)
                    ++ json_dumps_record (isoformat stamp) text ++ [10%N]))
    ∧ (10%N ∉ json_dumps_record (isoformat stamp) text)
    ∧ ∀ path, path ≠ py ".history" →
              path ≠ history_file (py ".history") today →
              fs' !! path = fs !! path.
Proof.
  intros Hdir Hfile Htext.
  rewrite (persist_appends _ _ _ _ Hdir Hfile Htext).
  eexists. split; [reflexivity|]. split; [|split; [|split]].
  - rewrite lookup_insert_ne by apply history_file_not_dir.
    apply lookup_insert_eq.
  - by rewrite lookup_insert_eq.
  - apply json_dumps_record_one_line.
  - intros path Hd Hf. by rewrite !lookup_insert_ne.
Qed.

(** X14: calls of [persist] in a row on one day, under the same conditions,
    append their lines to the day's file in call order, one newline per
    call. *)
Theorem persist_calls_in_order calls today fs :
  (∀ content, fs !! py ".history" ≠ Some (File content)) →
  fs !! history_file (py ".history") today ≠ Some Dir →
  Forall (λ call, no_surrogate call.1) calls →
  ∃ fs',
    persist_all calls today fs = Ok fs'
    ∧ file_content fs' (history_file (py ".history") today)
      = file_content fs (history_file (py ".history") today)
        ++ mjoin (record_line <$> calls)
    ∧ length (filter (λ c, c = 10%N) (mjoin (record_line <$> calls)))
      = length calls.
Proof.
  intros Hdir Hfile Hcalls.
  destruct (persist_all_appends calls today fs Hdir Hfile Hcalls) as (fs' & Hp & Hc).
  exists fs'. split; [done|]. split; [done|]. apply record_lines_count.
Qed.

Lemma existsb_surrogate_elem c s :
  c ∈ s → is_surrogate c = true → existsb is_surrogate s = true.
Proof.
  intros Hin Hc. apply existsb_exists. exists c. by rewrite <- list_elem_of_In.
Qed.

Lemma json_escape_char_surrogate c :
  is_surrogate c = true → json_escape_char c = [c].
Proof.
  unfold is_surrogate, json_escape_char.
  intros [Hlo _]%andb_true_iff. apply N.leb_le in Hlo.
  repeat match goal with
         | |- context [(c =? ?n)%N] =>
             destruct (N.eqb_spec c n) as [->|_]; [lia|]
         end.
  destruct (N.ltb_spec c 32); [lia | done].
Qed.

Lemma json_string_keeps_surrogate c s :
  c ∈ s → is_surrogate c = true → c ∈ json_string s.
Proof.
  intros Hin Hc. unfold json_string. rewrite !elem_of_app. right. left.
  apply list_elem_of_join. exists [c]. split; [by left|].
  apply list_elem_of_fmap. exists c. by rewrite json_escape_char_surrogate.
Qed.

(** X17: what [persist] raises: [FileExistsError] when [.history] is a
    regular file, [IsADirectoryError] when the day's file is a directory,
    [UnicodeEncodeError] when the text holds a lone surrogate. *)
Theorem persist_errors text today stamp fs :
  ((∃ content, fs !! py ".history" = Some (File content)) →
   persist text today stamp fs = Raise FileExistsError)
  ∧ ((∀ content, fs !! py ".history" ≠ Some (File content)) →
     fs !! history_file (py ".history") today = Some Dir →
     persist text today stamp fs = Raise IsADirectoryError)
  ∧ ((∀ content, fs !! py ".history" ≠ Some (File content)) →
     fs !! history_file (py ".history") today ≠ Some Dir →
     (∃ c, c ∈ text ∧ is_surrogate c = true) →
     persist text today stamp fs = Raise UnicodeEncodeError).
Proof.
  unfold persist, mkdir_exist_ok. split; [|split].
  - intros [content ->]. reflexivity.
  - intros Hdir Hfile.
    destruct (fs !! py ".history") as [[|content]|] eqn:Hd;
      [| by destruct (Hdir content) |]; rewrite Ok_bind; unfold append_text.
    + by rewrite Hfile.
    + by rewrite lookup_insert_ne, Hfile by apply not_eq_sym, history_file_not_dir.
  - intros Hdir Hfile (c & Hin & Hc).
    assert (existsb is_surrogate
              (json_dumps_record (isoformat stamp) text ++ [10%N]) = true) as Hs.
    { apply (existsb_surrogate_elem c); [|done].
      unfold json_dumps_record. rewrite !elem_of_app.
      left. do 7 right. left. by apply json_string_keeps_surrogate. }
    destruct (fs !! py ".history") as [[|content]|] eqn:Hd;
      [| by destruct (Hdir content) |]; rewrite Ok_bind; unfold append_text.
    + rewrite Hs. by destruct (fs !! history_file _ today) as [[|old]|].
    + rewrite lookup_insert_ne by apply not_eq_sym, history_file_not_dir.
      rewrite Hs. by destruct (fs !! history_file _ today) as [[|old]|].
Qed.

(** ** Persistence: one file per day *)

Lemma strftime_ymd dt :
  strftime dt (py "%Y%m%d") = pad4 (year dt) ++ pad2 (month dt) ++ pad2 (day dt).
Proof. rewrite <- (app_nil_r (pad2 (day dt))). reflexivity. Qed.

Lemma digit_eq a b : digit a = digit b → a mod 10 = b mod 10.
Proof.
  unfold digit. intros H. apply Z2N.inj in H; [lia | |].
  - pose proof (Z.mod_pos_bound a 10). lia.
  - pose proof (Z.mod_pos_bound b 10). lia.
Qed.

Lemma pad2_inj a b : 0 ≤ a < 100 → 0 ≤ b < 100 → pad2 a = pad2 b → a = b.
Proof.
  intros Ha Hb. unfold pad2. intros [= H1 H0].
  apply digit_eq in H1, H0.
  revert H1 H0. Z.to_euclidean_division_equations. lia.
Qed.

Lemma pad4_inj a b : 0 ≤ a < 10000 → 0 ≤ b < 10000 → pad4 a = pad4 b → a = b.
Proof.
  intros Ha Hb. unfold pad4, pad2. intros [= H3 H2 H1 H0].
  apply digit_eq in H3, H2, H1, H0.
  revert H3 H2 H1 H0. Z.to_euclidean_division_equations. lia.
Qed.

Lemma days_in_month_le y m : _days_in_month y m ≤ 31.
Proof.
  unfold _days_in_month. destruct ((m =? 2) && _is_leap y); [lia|].
  destruct (Z.to_nat m) as [|[|[|[|[|[|[|[|[|[|[|[|[|n]]]]]]]]]]]]]; simpl; try lia.
  destruct n; simpl; lia.
Qed.



Lemma persist_appends_line_witness :
  ∃ fs',
    persist (py "Running late.") monday_night monday_night ∅ = Ok fs'
    ∧ fs' !! py ".history" = Some Dir
    ∧ fs' !! py ".history/history_20240101.jsonl"
      = Some (File (json_dumps_record (py "2024-01-01T22:37:05.000123")
                      (py "Running late.") ++ [10%N])).
Proof.
  destruct (persist_appends_line (py "Running late.") monday_night monday_night ∅)
    as (fs' & Hp & Hd & Hf & _).
  - intros content. by rewrite lookup_empty.
  - by rewrite lookup_empty.
  - reflexivity.
  - exists fs'. split; [exact Hp|]. split; [exact Hd|]. exact Hf.
Defined.

Lemma persist_calls_in_order_witness :
  ∃ fs',
    persist_all [(py "first", monday_night); (py "second", monday_night)]
      monday_night ∅ = Ok fs'
    ∧ file_content fs' (py ".history/history_20240101.jsonl")
      = record_line (py "first", monday_night)
        ++ record_line (py "second", monday_night).
Proof.
  destruct (persist_calls_in_order
              [(py "first", monday_night); (py "second", monday_night)]
              monday_night ∅) as (fs' & Hp & Hc & _).
  - intros content. by rewrite lookup_empty.
  - by rewrite lookup_empty.
  - by repeat constructor.
  - exists fs'. split; [exact Hp|].
    change (py ".history/history_20240101.jsonl")
      with (history_file (py ".history") monday_night).
    rewrite Hc. vm_compute. reflexivity.
Defined.

Lemma persist_errors_witness :
  persist (py "Running late.") monday_night monday_night
    {[ py ".history" := File (py "not a directory") ]}
  = Raise FileExistsError.
Proof.
  destruct (persist_errors (py "Running late.") monday_night monday_night
              {[ py ".history" := File (py "not a directory") ]}) as [Hfile _].
  apply Hfile. exists (py "not a directory"). apply lookup_singleton_eq.
Defined.

(** ** The caller: handlers, the history tab, the sidebar *)

Section handlers.
Context `{RS : RandomSource}.
Implicit Types (generator : ExcuseGenerator) (request : ExcuseRequest).


End handlers.



(** X20: the History tab lists the newest entry first and numbers the
    entries by their place in the history: there is one line per entry, and
    the line that shows number [n] shows the [n]-th excuse that was
    generated, [n] running from the length of the history down to 1. *)
Theorem history_view_numbering (history : list str) :
  length (history_view history) = length history
  ∧ ∀ idx n item,
      history_view history !! idx = Some (n, item) →
      n = Z.of_nat (length history) - Z.of_nat idx
      ∧ 1 ≤ n ≤ Z.of_nat (length history)
      ∧ history !! Z.to_nat (n - 1) = Some item.
Proof.
  unfold history_view. split; [by rewrite length_imap, length_reverse|].
  intros idx n item. rewrite list_lookup_imap.
  destruct (reverse history !! idx) as [x|] eqn:E; [|done].
  simpl. intros [= <- <-].
  pose proof (lookup_lt_Some _ _ _ E) as Hlt. rewrite length_reverse in Hlt.
  rewrite reverse_lookup in E by done.
  split; [done|]. split; [lia|].
  by replace (Z.to_nat (Z.of_nat (length history) - Z.of_nat idx - 1))
    with (length history - S idx)%nat by lia.
Qed.

Lemma history_view_numbering_witness :
  history_view [py "first"; py "second"; py "third"]
  = [(3, py "third"); (2, py "second"); (1, py "first")]
  ∧ [py "first"; py "second"; py "third"] !! Z.to_nat (2 - 1) = Some (py "second").
Proof.
  split; [reflexivity|].
  destruct (history_view_numbering [py "first"; py "second"; py "third"])
    as [_ Hview].
  destruct (Hview 1%nat 2 (py "second")) as (_ & _ & Hitem); [reflexivity|].
  exact Hitem.
Defined.

Lemma default_deliverable_trimmed : trimmed (py "the deliverable").
Proof. split; intros c [= <-]; reflexivity. Qed.

(** X21: the custom context reaches the context builder trimmed.  A blank
    entry in the sidebar is ignored: the context has the five keys and the
    default deliverable.  Whatever is entered, the deliverable of the context
    has no leading or trailing whitespace. *)
Theorem sidebar_context_trimmed category audience tone spec length raw seed
    saving folder now :
  datetime_ok now = true →
  ∃ context deliverable,
    _build_context now
      (render_sidebar_controls category audience tone spec length raw seed
         saving folder) = Ok context
    ∧ context !! py "deliverable" = Some deliverable
    ∧ trimmed deliverable
    ∧ (Forall (λ c, isspace c = true) raw →
       deliverable = py "the deliverable" ∧ dom context = five_keys).
Proof.
  intros Hok.
  destruct (time_fields_total now spec Hok) as (tf & nt & Ht).
  rewrite build_context_parts. simpl specificity. simpl custom_context.
  rewrite Ht, Ok_bind.
  destruct (strip raw) as [|c text] eqn:Hstrip.
  - eexists _, _. split; [reflexivity|]. simpl with_custom.
    rewrite base_context_deliverable, base_context_dom.
    split; [done|]. split; [apply default_deliverable_trimmed | done].
  - assert (¬ Forall (λ c, isspace c = true) raw) as Hnot.
    { intros Hall. by rewrite strip_spaces in Hstrip. }
    destruct (decide (len (c :: text) < 120
                      ∧ contains (py ",") (c :: text) = false
                      ∧ contains (py " ") (c :: text) = true))
      as [(Hlen & Hcomma & Hspace)|Hcond].
    + rewrite with_custom_override by done.
      eexists _, _. split; [reflexivity|]. rewrite lookup_insert_eq.
      split; [done|]. split; [|done]. rewrite <- Hstrip. apply strip_trimmed.
    + rewrite with_custom_notes by done.
      eexists _, _. split; [reflexivity|].
      rewrite lookup_insert_ne by key_neq. rewrite base_context_deliverable.
      split; [done|]. split; [apply default_deliverable_trimmed | done].
Qed.

Lemma sidebar_context_trimmed_witness :
  ∃ context,
    _build_context monday_night
      (render_sidebar_controls (py "General") (py "Manager") (py "Brief") 2
         (py "Medium") (py "  client demo  ") 0 false [])
    = Ok context
    ∧ context !! py "deliverable" = Some (py "client demo").
Proof.
  destruct (sidebar_context_trimmed (py "General") (py "Manager") (py "Brief") 2
              (py "Medium") (py "  client demo  ") 0 false [] monday_night)
    as (context & deliverable & Hc & Hd & _); [vm_compute; reflexivity|].
  exists context. split; [exact Hc|].
  vm_compute in Hc. injection Hc as <-. vm_compute. reflexivity.
Defined.
